(** * WsSession: the per-connection session engine of bcos-boostssl

    A shallow embedding of [bcos-boostssl/websocket/WsSession.cpp].

    The session object is a record; every member function is a function on
    that record.  The collaborators the session only talks to (the stream,
    the worker pool, the I/O context with its deadline timers, the log) are
    represented by what the session handed to them:
      - [m_trace] lists, in program order, the calls made on the stream
        (close, ping, pong, asyncRead, asyncWrite, asyncHandshake), the
        inline call of the connect handler and the [drop] log line;
      - [m_threadPool] lists the closures given to [m_threadPool->enqueue];
      - [m_ioc] lists the deadline timers that were armed on [*m_ioc], in
        order; it is a record of arming, not of which timers still exist.
    A call through the stream pointer while it is null, and [front]/[erase]
    on an empty queue, have no defined behaviour in C++; they end the run in
    a [Crash] outcome that keeps the state reached so far. *)

From stdpp Require Import gmap strings list fin_maps.
From Stdlib Require Import ZArith.
From Stdlib.Strings Require Import Byte.

(** ** Data *)

(** [bcos::bytes] *)
Definition bytes : Type := list Byte.byte.

(** The reason codes of [WsError.h] that this file uses. *)
Inductive WsError : Type :=
| AcceptError
| PingError
| PongError
| PacketError
| ReadError
| WriteError
| TimeOut.

(** [WsMessage]: the sequence identifier and the rest of the message. *)
Module WsMessage.
Record t : Type := mk { seq : string; payload : bytes }.
End WsMessage.

(** [Options]: the response timeout override, in milliseconds. *)
Module Options.
Record t : Type := mk { timeout : Z }.
End Options.

(** A [RespCallBack] is a [std::function]; it is identified by a number.
    An empty [std::function] is [None] where the code tests it. *)
Definition RespCallBack : Type := nat.

(** [WsSession::CallBack]: the response handler and the optional timer
    (the index of the timer in [m_ioc]). *)
Record CallBack : Type := mkCallBack {
  respCallBack : RespCallBack;
  timer : option nat
}.

(** The closures given to the worker pool, by their capture lists. *)
Inductive Task : Type :=
| DisconnectTask
    (* drop: [self] *)
| ReadTask (message : WsMessage.t) (callback : option CallBack)
    (* onReadPacket: [message, self, callback] *)
| TimeoutTask (callback : CallBack) (error : WsError).
    (* onRespTimeout: [callback, error] *)

(** What a closure does when a worker runs it. *)
Inductive Action : Type :=
| CallDisconnectHandler
    (* session->disconnectHandler()(nullptr, session) *)
| CancelTimer (t : nat)
    (* callback->timer->cancel() *)
| CallRespCallBack (f : RespCallBack) (error : option WsError)
    (msg : option WsMessage.t) (session : bool)
    (* callback->respCallBack(error, msg, session); [session] is false for nullptr *)
| CallRecvMessageHandler (msg : WsMessage.t).
    (* session->recvMessageHandler()(message, session) *)

(** Calls on the stream, the inline connect handler call and the log line
    of [drop]. *)
Inductive Event : Type :=
| LogDrop (reason : WsError)
| StreamClose
| StreamPing
| StreamPong
| StreamAsyncRead
| StreamAsyncWrite (b : bytes)
| StreamAsyncHandshake
| ConnectHandlerCall.

Record WsSession : Type := mkSession {
  m_isDrop : bool;
  m_stream : option nat;              (* None is nullptr *)
  m_buffer : bytes;
  m_queue : list bytes;
  m_callbacks : gmap string CallBack;
  m_sendMsgTimeout : Z;
  m_connectHandler : bool;            (* false is the empty std::function *)
  m_threadPool : list Task;           (* oldest first *)
  m_ioc : list (Z * string);          (* armed timers: duration, captured seq *)
  m_trace : list Event                (* oldest first *)
}.

Definition set_isDrop (v : bool) (s : WsSession) : WsSession :=
  mkSession v (m_stream s) (m_buffer s) (m_queue s) (m_callbacks s)
    (m_sendMsgTimeout s) (m_connectHandler s) (m_threadPool s) (m_ioc s) (m_trace s).

Definition set_stream (v : option nat) (s : WsSession) : WsSession :=
  mkSession (m_isDrop s) v (m_buffer s) (m_queue s) (m_callbacks s)
    (m_sendMsgTimeout s) (m_connectHandler s) (m_threadPool s) (m_ioc s) (m_trace s).

Definition set_buffer (v : bytes) (s : WsSession) : WsSession :=
  mkSession (m_isDrop s) (m_stream s) v (m_queue s) (m_callbacks s)
    (m_sendMsgTimeout s) (m_connectHandler s) (m_threadPool s) (m_ioc s) (m_trace s).

Definition set_queue (v : list bytes) (s : WsSession) : WsSession :=
  mkSession (m_isDrop s) (m_stream s) (m_buffer s) v (m_callbacks s)
    (m_sendMsgTimeout s) (m_connectHandler s) (m_threadPool s) (m_ioc s) (m_trace s).

Definition set_callbacks (v : gmap string CallBack) (s : WsSession) : WsSession :=
  mkSession (m_isDrop s) (m_stream s) (m_buffer s) (m_queue s) v
    (m_sendMsgTimeout s) (m_connectHandler s) (m_threadPool s) (m_ioc s) (m_trace s).

(** [m_threadPool->enqueue(task)] *)
Definition enqueue (task : Task) (s : WsSession) : WsSession :=
  mkSession (m_isDrop s) (m_stream s) (m_buffer s) (m_queue s) (m_callbacks s)
    (m_sendMsgTimeout s) (m_connectHandler s) (m_threadPool s ++ [task]) (m_ioc s)
    (m_trace s).

(** A [deadline_timer] on [*m_ioc] with [async_wait] started.  The timer is
    owned by its [CallBack] alone (the wait handler captures the session and
    the sequence identifier): when the [CallBack] is released the timer is
    destroyed and its wait completes with an error code.  [m_ioc] keeps the
    entry all the same. *)
Definition start_timer (ms : Z) (seq : string) (s : WsSession) : WsSession :=
  mkSession (m_isDrop s) (m_stream s) (m_buffer s) (m_queue s) (m_callbacks s)
    (m_sendMsgTimeout s) (m_connectHandler s) (m_threadPool s) (m_ioc s ++ [(ms, seq)])
    (m_trace s).

Definition record (e : Event) (s : WsSession) : WsSession :=
  mkSession (m_isDrop s) (m_stream s) (m_buffer s) (m_queue s) (m_callbacks s)
    (m_sendMsgTimeout s) (m_connectHandler s) (m_threadPool s) (m_ioc s)
    (m_trace s ++ [e]).

(** ** Outcomes *)

Inductive Fault : Type :=
| NullStream        (* a member call through m_stream == nullptr *)
| EmptyQueue.       (* m_queue.front() or m_queue.erase(begin()) on an empty queue *)

Inductive Outcome : Type :=
| Done (s : WsSession)
| Crash (f : Fault) (s : WsSession).

Definition state_of (o : Outcome) : WsSession :=
  match o with Done s | Crash _ s => s end.

Definition fault_of (o : Outcome) : option Fault :=
  match o with Done _ => None | Crash f _ => Some f end.

(** ** The member functions *)

(** Modelled from the spec: the default value of the parameter [_remove] of
    [getAndRemoveRespCallback], declared in WsSession.h, which is not among
    the sources.  The spec names the operation take-and-remove: the entry is
    erased. *)
Definition remove_default : bool := true.

Section Session.

(** The message codec is a collaborator: [decode] stands for
    [buildMessage()] followed by [message->decode(data, size)] and gives
    the status and the message built; [encode] for [_msg->encode(buffer)]. *)
Variable decode : bytes -> Z * WsMessage.t.
Variable encode : WsMessage.t -> bytes.

(** The integer types of [Options::timeout] and [m_sendMsgTimeout] are
    declared in headers that are not among the sources.  The conditional
    expression of [asyncSendMessage] converts both operands to their common
    type.  A positive value of either operand is a value of the common type
    and is not changed; [to_common] is what the conversion makes of the
    session default: the identity when the two fields have one type or the
    common type is signed, and reduction modulo 2^w when the common type is
    unsigned of w bits. *)
Variable to_common : Z -> Z.

Definition disconnect (s : WsSession) : WsSession :=
  match m_stream s with
  | Some _ => set_stream None (record StreamClose s)
  | None => s
  end.

Definition drop (_reason : WsError) (s : WsSession) : WsSession :=
  let s := record (LogDrop _reason) s in
  let s := set_isDrop true s in
  let s := disconnect s in
  enqueue DisconnectTask s.

(** [throws] tells whether the call on the stream throws a
    [std::exception]. *)
Definition ping (throws : bool) (s : WsSession) : WsSession :=
  match m_stream s with
  | Some _ => if throws then drop PingError s else record StreamPing s
  | None => s
  end.

Definition pong (throws : bool) (s : WsSession) : WsSession :=
  match m_stream s with
  | Some _ => if throws then drop PongError s else record StreamPong s
  | None => s
  end.

Definition addRespCallback (_seq : string) (_callback : CallBack)
    (s : WsSession) : WsSession :=
  set_callbacks (<[_seq := _callback]> (m_callbacks s)) s.

Definition getAndRemoveRespCallback (_seq : string) (_remove : bool)
    (s : WsSession) : option CallBack * WsSession :=
  match m_callbacks s !! _seq with
  | Some callback =>
      (Some callback,
       if _remove then set_callbacks (delete _seq (m_callbacks s)) s else s)
  | None => (None, s)
  end.

Definition onRespTimeout (_error : bool) (_seq : string)
    (s : WsSession) : WsSession :=
  if _error then s
  else
    match getAndRemoveRespCallback _seq remove_default s with
    | (None, s) => s
    | (Some callback, s) => enqueue (TimeoutTask callback TimeOut) s
    end.

(** The completion handler given to [timer->async_wait]: [locked] tells
    whether [self.lock()] gives the session. *)
Definition timer_wait_handler (locked : bool) (e : bool) (seq : string)
    (s : WsSession) : WsSession :=
  if locked then onRespTimeout e seq s else s.

Definition onReadPacket (s : WsSession) : WsSession :=
  let (status, message) := decode (m_buffer s) in
  if (status <? 0)%Z then drop PacketError s
  else
    let s := set_buffer [] s in
    let seq := WsMessage.seq message in
    let (callback, s) := getAndRemoveRespCallback seq remove_default s in
    enqueue (ReadTask message callback) s.

Definition asyncRead (throws : bool) (s : WsSession) : Outcome :=
  match m_stream s with
  | None => Crash NullStream s
  | Some _ =>
      if throws then Done (drop ReadError s) else Done (record StreamAsyncRead s)
  end.

Definition onRead (_ec : bool) (throws : bool) (s : WsSession) : Outcome :=
  if _ec then Done (drop ReadError s)
  else asyncRead throws (onReadPacket s).

Definition asyncWrite (throws : bool) (s : WsSession) : Outcome :=
  match m_stream s with
  | None => Crash NullStream s
  | Some _ =>
      match m_queue s with
      | [] => Crash EmptyQueue s
      | front :: _ =>
          if throws then Done (drop WriteError s)
          else Done (record (StreamAsyncWrite front) s)
      end
  end.

Definition onWritePacket (throws : bool) (s : WsSession) : Outcome :=
  match m_queue s with
  | [] => Crash EmptyQueue s
  | _ :: rest =>
      let s := set_queue rest s in
      match rest with
      | [] => Done s
      | _ :: _ => asyncWrite throws s
      end
  end.

Definition onWrite (_ec : bool) (throws : bool) (s : WsSession) : Outcome :=
  if _ec then Done (drop WriteError s)
  else onWritePacket throws s.

Definition asyncSendMessage (_msg : WsMessage.t) (_options : Options.t)
    (_respFunc : option RespCallBack) (throws : bool) (s : WsSession) : Outcome :=
  let seq := WsMessage.seq _msg in
  let buffer := encode _msg in
  let s :=
    match _respFunc with
    | Some f =>
        let timeout :=
          if (0 <? Options.timeout _options)%Z then Options.timeout _options
          else to_common (m_sendMsgTimeout s) in
        if (0 <? timeout)%Z then
          let t := length (m_ioc s) in
          let s := start_timer timeout seq s in
          addRespCallback seq (mkCallBack f (Some t)) s
        else addRespCallback seq (mkCallBack f None) s
    | None => s
    end in
  let isEmpty := match m_queue s with [] => true | _ :: _ => false end in
  let s := set_queue (m_queue s ++ [buffer]) s in
  if isEmpty then asyncWrite throws s else Done s.

Definition startAsClient (throws : bool) (s : WsSession) : Outcome :=
  let s := if m_connectHandler s then record ConnectHandlerCall s else s in
  asyncRead throws s.

Definition startAsServer (s : WsSession) : Outcome :=
  match m_stream s with
  | None => Crash NullStream s
  | Some _ => Done (record StreamAsyncHandshake s)
  end.

Definition onHandshake (_ec : bool) (throws : bool) (s : WsSession) : Outcome :=
  if _ec then Done (drop AcceptError s)
  else
    let s := if m_connectHandler s then record ConnectHandlerCall s else s in
    asyncRead throws s.


(** ** The session in its environment

    The stream completes the reads and writes it was given, one completion
    per operation; a timer completes once; callers send, ping, pong and drop
    at any time.  [submitted] lists the buffers appended by
    [asyncSendMessage] in call order; [wacks] and [racks] count the write
    and read completions delivered so far. *)

Definition wire (tr : list Event) : list bytes :=
  omap (fun e => match e with StreamAsyncWrite b => Some b | _ => None end) tr.

Definition reads_issued (tr : list Event) : nat :=
  length (omap (fun e => match e with StreamAsyncRead => Some tt | _ => None end) tr).

Definition closes (tr : list Event) : nat :=
  length (omap (fun e => match e with StreamClose => Some tt | _ => None end) tr).

Record World : Type := mkWorld {
  session : WsSession;
  crashed : option Fault;
  submitted : list bytes;
  wacks : nat;
  racks : nat;
  tdone : list nat
}.

Definition writes_in_flight (w : World) : nat :=
  length (wire (m_trace (session w))) - wacks w.

Definition reads_in_flight (w : World) : nat :=
  reads_issued (m_trace (session w)) - racks w.

Inductive Input : Type :=
| CallSend (_msg : WsMessage.t) (_options : Options.t)
    (_respFunc : option RespCallBack) (throws : bool)
| WriteCompletes (_ec : bool) (throws : bool)
| ReadCompletes (_ec : bool) (data : bytes) (throws : bool)
| TimerCompletes (t : nat) (e : bool)
| CallDrop (_reason : WsError)
| CallPing (throws : bool)
| CallPong (throws : bool).

Definition after (o : Outcome) (w : World) : World :=
  mkWorld (state_of o) (fault_of o) (submitted w) (wacks w) (racks w) (tdone w).

(** One input; an input that cannot occur (a completion with no operation
    in flight, a timer that does not exist or has completed) and any input
    after a crash leave the world as it is.  A timer that was armed may
    complete with either code, also one whose [CallBack] has been released
    and which the code would complete with an error code only: the runs
    here include every run of the code. *)
Definition step (i : Input) (w : World) : World :=
  match crashed w with
  | Some _ => w
  | None =>
      let s := session w in
      match i with
      | CallSend _msg _options _respFunc throws =>
          after (asyncSendMessage _msg _options _respFunc throws s)
            (mkWorld s None (submitted w ++ [encode _msg]) (wacks w) (racks w) (tdone w))
      | WriteCompletes _ec throws =>
          if bool_decide (0 < writes_in_flight w)%nat then
            after (onWrite _ec throws s)
              (mkWorld s None (submitted w) (S (wacks w)) (racks w) (tdone w))
          else w
      | ReadCompletes _ec data throws =>
          if bool_decide (0 < reads_in_flight w)%nat then
            after (onRead _ec throws (set_buffer (m_buffer s ++ data) s))
              (mkWorld s None (submitted w) (wacks w) (S (racks w)) (tdone w))
          else w
      | TimerCompletes t e =>
          match m_ioc s !! t with
          | Some (_, seq) =>
              if bool_decide (t ∈ tdone w) then w
              else
                after (Done (timer_wait_handler true e seq s))
                  (mkWorld s None (submitted w) (wacks w) (racks w) (t :: tdone w))
          | None => w
          end
      | CallDrop _reason => after (Done (drop _reason s)) w
      | CallPing throws => after (Done (ping throws s)) w
      | CallPong throws => after (Done (pong throws s)) w
      end
  end.

Definition run (inputs : list Input) (w : World) : World :=
  foldl (fun w i => step i w) w inputs.

(** A session as its creator hands it over: stream set, nothing queued,
    nothing registered. *)
Definition fresh (timeout : Z) (connectHandler : bool) : WsSession :=
  mkSession false (Some 0%nat) [] [] ∅ timeout connectHandler [] [] [].

(** The client connector starts the session; the first read is armed. *)
Definition init_world (timeout : Z) (connectHandler : bool) : World :=
  after (startAsClient false (fresh timeout connectHandler))
    (mkWorld (fresh timeout connectHandler) None [] 0 0 []).

End Session.

(** A worker runs a closure; [locked] tells whether [self.lock()] gives the
    session.  The closure of [onRespTimeout] holds no session reference. *)
Definition run_task (locked : bool) (t : Task) : list Action :=
  match t with
  | DisconnectTask =>
      if locked then [CallDisconnectHandler] else []
  | ReadTask message callback =>
      if locked then
        match callback with
        | Some cb =>
            match timer cb with Some t => [CancelTimer t] | None => [] end
            ++ [CallRespCallBack (respCallBack cb) None (Some message) true]
        | None => [CallRecvMessageHandler message]
        end
      else []
  | TimeoutTask callback error =>
      [CallRespCallBack (respCallBack callback) (Some error) None false]
  end.

Definition run_pool (locked : bool) (tasks : list Task) : list Action :=
  flat_map (run_task locked) tasks.

Definition disconnect_calls (acts : list Action) : nat :=
  length (omap (fun a => match a with CallDisconnectHandler => Some tt | _ => None end) acts).

Definition resp_calls (acts : list Action) : list (RespCallBack * option WsError) :=
  omap (fun a => match a with
                 | CallRespCallBack f error _ _ => Some (f, error)
                 | _ => None
                 end) acts.

(** [drop] called once per reason, in order. *)
Definition drops (reasons : list WsError) (s : WsSession) : WsSession :=
  foldl (fun s r => drop r s) s reasons.

(** The invariant of the outbound queue: the buffers submitted are those
    already popped followed by the queue, and the stream was given the
    popped ones and at most the head of the queue. *)
Definition fifo_inv (w : World) : Prop :=
  exists (popped : list bytes) (k : nat),
    submitted w = popped ++ m_queue (session w) /\
    wire (m_trace (session w)) = popped ++ take k (m_queue (session w)) /\
    (k <= 1)%nat /\
    (length popped <= wacks w)%nat.

(** The calls that reach the stream, in order. *)
Definition stream_calls (tr : list Event) : list Event :=
  omap (fun e => match e with
                 | LogDrop _ | ConnectHandlerCall => None
                 | e => Some e
                 end) tr.

(** The dropped flag and the stream handle go together, and the stream was
    closed exactly when the handle is null. *)
Definition life_ok (s : WsSession) : Prop :=
  m_isDrop s = match m_stream s with Some _ => false | None => true end /\
  closes (m_trace s) = match m_stream s with Some _ => 0 | None => 1 end%nat.

(** The invariant of the read loop: one read is armed while the session is
    up, and never more than one. *)
Definition read_loop_inv (w : World) : Prop :=
  life_ok (session w) /\
  (racks w <= reads_issued (m_trace (session w)))%nat /\
  (reads_issued (m_trace (session w)) <= S (racks w))%nat /\
  (crashed w = None -> m_isDrop (session w) = false ->
   reads_issued (m_trace (session w)) = S (racks w)).

(** Calls of [asyncSendMessage], one per entry. *)
Definition send_inputs
    (l : list (WsMessage.t * Options.t * option RespCallBack * bool)) : list Input :=
  map (fun x => CallSend x.1.1.1 x.1.1.2 x.1.2 x.2) l.

(** Every registered callback that has a timer refers to a timer armed for
    its own sequence identifier, with a positive duration. *)
Definition registry_inv (s : WsSession) : Prop :=
  forall (k : string) (cb : CallBack) (t : nat),
    m_callbacks s !! k = Some cb ->
    timer cb = Some t ->
    exists ms : Z, m_ioc s !! t = Some (ms, k) /\ (0 < ms)%Z.

(** Calls of [asyncSendMessage] during which the stream does not throw. *)
Definition unfailing_sends
    (l : list (WsMessage.t * Options.t * option RespCallBack)) : list Input :=
  map (fun x => CallSend x.1.1 x.1.2 x.2 false) l.

(** Conversions of the session default to the common type of the two
    timeout fields: [same_type] when the fields have one type (or the common
    type is signed), [to_uint32] when the common type is unsigned of 32
    bits. *)
Definition same_type (z : Z) : Z := z.

Definition to_uint32 (z : Z) : Z := (z mod 2 ^ 32)%Z.

(** ** A sample codec and sample values

    A frame is one byte of sequence identifier followed by the payload; the
    empty frame is a framing error. *)

Definition sample_decode (b : bytes) : Z * WsMessage.t :=
  match b with
  | [] => ((-1)%Z, WsMessage.mk EmptyString [])
  | x :: rest => (0%Z, WsMessage.mk (String (Ascii.ascii_of_byte x) EmptyString) rest)
  end.

Definition sample_encode (m : WsMessage.t) : bytes :=
  String.list_byte_of_string (WsMessage.seq m) ++ WsMessage.payload m.

Definition msg_a : WsMessage.t := WsMessage.mk "a" [x01].
Definition msg_b : WsMessage.t := WsMessage.mk "b" [x02].

Definition no_timeout : Options.t := Options.mk 0.

(** A started client session with a callback registered under "a" and the
    frame of a reply to "a" in the read buffer. *)
Definition awaiting_a : WsSession :=
  set_buffer (sample_encode msg_a)
    (addRespCallback "a" (mkCallBack 7 None) (fresh 0 false)).

(** A started client session with nothing registered and a frame with
    sequence identifier "b" in the read buffer. *)
Definition unsolicited_b : WsSession :=
  set_buffer (sample_encode msg_b) (fresh 0 false).

(** Two sends, then the read fails and the session is dropped while the
    first write is still in flight. *)
Definition dropped_mid_write : World :=
  run sample_decode sample_encode same_type
    [CallSend msg_a no_timeout None false;
     CallSend msg_b no_timeout None false;
     ReadCompletes true [] false]
    (init_world 0 false).


(** A response timeout of one second. *)
Definition one_second : Options.t := Options.mk 1000.

(** A session after teardown. *)
Definition torn_down : WsSession := drop ReadError (fresh 0 false).

(** ** Basic facts *)

Section Facts.

Variable decode : bytes -> Z * WsMessage.t.
Variable encode : WsMessage.t -> bytes.
Variable to_common : Z -> Z.

Lemma wire_app (a b : list Event) : wire (a ++ b) = wire a ++ wire b.
Proof. apply omap_app. Qed.

Lemma closes_app (a b : list Event) : closes (a ++ b) = (closes a + closes b)%nat.
Proof. unfold closes. rewrite omap_app. apply length_app. Qed.

Lemma run_pool_app (locked : bool) (a b : list Task) :
  run_pool locked (a ++ b) = run_pool locked a ++ run_pool locked b.
Proof. apply flat_map_app. Qed.

Lemma disconnect_calls_app (a b : list Action) :
  disconnect_calls (a ++ b) = (disconnect_calls a + disconnect_calls b)%nat.
Proof. unfold disconnect_calls. rewrite omap_app. apply length_app. Qed.

(** What [drop] leaves alone. *)
Lemma drop_frame (r : WsError) (s : WsSession) :
  m_queue (drop r s) = m_queue s /\
  m_callbacks (drop r s) = m_callbacks s /\
  m_ioc (drop r s) = m_ioc s /\
  m_buffer (drop r s) = m_buffer s /\
  wire (m_trace (drop r s)) = wire (m_trace s).
Proof.
  unfold drop, disconnect. simpl.
  destruct (m_stream s); simpl; rewrite ?wire_app; simpl; rewrite ?app_nil_r; auto.
Qed.

(** What [drop] does: the flag, the handle, the task, the close. *)
Lemma drop_effect (r : WsError) (s : WsSession) :
  m_isDrop (drop r s) = true /\
  m_stream (drop r s) = None /\
  m_threadPool (drop r s) = m_threadPool s ++ [DisconnectTask] /\
  closes (m_trace (drop r s)) =
    (closes (m_trace s) + match m_stream s with Some _ => 1 | None => 0 end)%nat.
Proof.
  unfold drop, disconnect. simpl.
  destruct (m_stream s) eqn:E; simpl; rewrite ?closes_app; simpl; auto with lia.
Qed.

Lemma asyncWrite_frame (throws : bool) (s : WsSession) :
  m_queue (state_of (asyncWrite throws s)) = m_queue s /\
  m_callbacks (state_of (asyncWrite throws s)) = m_callbacks s /\
  m_ioc (state_of (asyncWrite throws s)) = m_ioc s.
Proof.
  destruct (drop_frame WriteError s) as (Hq & Hc & Hi & _).
  unfold asyncWrite.
  destruct (m_stream s); [|auto].
  destruct (m_queue s) eqn:E; [simpl; auto|].
  destruct throws; simpl; rewrite ?E; auto.
Qed.

(** ** ping and pong on a torn-down session *)

(** C9: with the stream handle null, [ping] and [pong] return with the
    session exactly as it was, whatever the stream would have done: no
    control frame is sent, nothing is thrown, [drop] is not called. *)
Theorem ping_pong_null_stream (throws : bool) (s : WsSession) :
  m_stream s = None ->
  ping throws s = s /\ pong throws s = s.
Proof.
  intros Hnull. unfold ping, pong. rewrite Hnull. split; reflexivity.
Qed.

(** ** The timer handler *)

(** C10: called with an error code, [onRespTimeout] returns at once: the
    session is unchanged, so every key of the registry keeps its entry and
    no closure reaches the worker pool. *)
Theorem onRespTimeout_error_returns (_seq : string) (s : WsSession) :
  onRespTimeout true _seq s = s /\
  (forall k, m_callbacks (onRespTimeout true _seq s) !! k = m_callbacks s !! k) /\
  m_threadPool (onRespTimeout true _seq s) = m_threadPool s.
Proof.
  unfold onRespTimeout. simpl. auto.
Qed.

(** ** Registration on send *)


(** ** The read path *)

(** C8: a decoded message whose sequence identifier has no registered
    callback: the lookup gives nothing and leaves the session as it is, the
    registry is the same for every key after [onReadPacket], [drop] is not
    called, and the one closure enqueued hands the message to the generic
    receive handler when it runs. *)
Theorem unknown_seq_to_recv_handler (s : WsSession) (status : Z)
    (message : WsMessage.t) :
  decode (m_buffer s) = (status, message) ->
  (0 <= status)%Z ->
  m_callbacks s !! WsMessage.seq message = None ->
  getAndRemoveRespCallback (WsMessage.seq message) remove_default s = (None, s) /\
  onReadPacket decode s = enqueue (ReadTask message None) (set_buffer [] s) /\
  m_callbacks (onReadPacket decode s) = m_callbacks s /\
  m_isDrop (onReadPacket decode s) = m_isDrop s /\
  m_trace (onReadPacket decode s) = m_trace s /\
  run_task true (ReadTask message None) = [CallRecvMessageHandler message].
Proof.
  intros Hdec Hst Hnone.
  assert (Hget : getAndRemoveRespCallback (WsMessage.seq message) remove_default s
                 = (None, s)).
  { unfold getAndRemoveRespCallback. rewrite Hnone. reflexivity. }
  assert (Hread : onReadPacket decode s
                  = enqueue (ReadTask message None) (set_buffer [] s)).
  { unfold onReadPacket. rewrite Hdec.
    destruct (status <? 0)%Z eqn:E; [apply Z.ltb_lt in E; lia|].
    unfold getAndRemoveRespCallback. simpl. rewrite Hnone. reflexivity. }
  rewrite Hread. simpl. repeat split; assumption || reflexivity.
Qed.

(** ** The callback registry *)

Lemma getAndRemoveRespCallback_spec (k : string) (s : WsSession) :
  getAndRemoveRespCallback k remove_default s =
    (m_callbacks s !! k, set_callbacks (delete k (m_callbacks s)) s).
Proof.
  unfold getAndRemoveRespCallback, remove_default.
  destruct (m_callbacks s !! k) eqn:E; [reflexivity|].
  rewrite delete_id by assumption. destruct s; reflexivity.
Qed.

(** C2: [getAndRemoveRespCallback] looks the identifier up and erases its
    entry in one step, giving the callback or nothing.  Once a call has
    taken the callback of an identifier, a later call for it gives nothing
    and changes nothing.  So of a reply and a timer expiry for a registered
    request, in either order, exactly one gets the callback: the reply first
    gives one closure with the callback and the expiry enqueues nothing; the
    expiry first gives the time-out closure and the reply then goes to the
    generic receive handler.  Run on the workers, the response handler is
    called once in both orders. *)
Theorem take_and_remove_claims_once (s : WsSession) (cb : CallBack)
    (status : Z) (message : WsMessage.t) :
  m_callbacks s !! WsMessage.seq message = Some cb ->
  decode (m_buffer s) = (status, message) ->
  (0 <= status)%Z ->
  let seq := WsMessage.seq message in
  let taken := getAndRemoveRespCallback seq remove_default s in
  let reply_then_expiry := onRespTimeout false seq (onReadPacket decode s) in
  let expiry_then_reply := onReadPacket decode (onRespTimeout false seq s) in
  taken = (Some cb, set_callbacks (delete seq (m_callbacks s)) s) /\
  getAndRemoveRespCallback seq remove_default taken.2 = (None, taken.2) /\
  m_threadPool reply_then_expiry = m_threadPool s ++ [ReadTask message (Some cb)] /\
  m_threadPool expiry_then_reply =
    m_threadPool s ++ [TimeoutTask cb TimeOut; ReadTask message None] /\
  resp_calls (run_pool true [ReadTask message (Some cb)]) = [(respCallBack cb, None)] /\
  resp_calls (run_pool true [TimeoutTask cb TimeOut; ReadTask message None]) =
    [(respCallBack cb, Some TimeOut)] /\
  m_callbacks reply_then_expiry !! seq = None /\
  m_callbacks expiry_then_reply !! seq = None.
Proof.
  intros Hcb Hdec Hst seq taken reply_then_expiry expiry_then_reply.
  subst seq. set (seq := WsMessage.seq message) in *.
  assert (Hlt : (status <? 0)%Z = false) by (apply Z.ltb_ge; lia).
  assert (Htaken : taken = (Some cb, set_callbacks (delete seq (m_callbacks s)) s)).
  { subst taken. rewrite getAndRemoveRespCallback_spec, Hcb. reflexivity. }
  assert (Hreply : onReadPacket decode s =
            enqueue (ReadTask message (Some cb))
              (set_callbacks (delete seq (m_callbacks s)) (set_buffer [] s))).
  { unfold onReadPacket. rewrite Hdec, Hlt. fold seq.
    rewrite getAndRemoveRespCallback_spec. simpl. rewrite Hcb. reflexivity. }
  assert (Hexpiry : onRespTimeout false seq s =
            enqueue (TimeoutTask cb TimeOut)
              (set_callbacks (delete seq (m_callbacks s)) s)).
  { unfold onRespTimeout. rewrite getAndRemoveRespCallback_spec, Hcb. reflexivity. }
  split; [exact Htaken|].
  split.
  { rewrite Htaken. simpl. rewrite getAndRemoveRespCallback_spec. simpl.
    rewrite lookup_delete_eq, delete_delete_eq. reflexivity. }
  subst reply_then_expiry expiry_then_reply.
  rewrite Hreply, Hexpiry.
  unfold onRespTimeout, onReadPacket. simpl. rewrite Hdec, Hlt. fold seq.
  rewrite !getAndRemoveRespCallback_spec. simpl.
  rewrite !lookup_delete_eq. simpl.
  rewrite <- app_assoc. simpl.
  repeat split; try reflexivity; try apply lookup_delete_eq.
  unfold resp_calls, run_pool. simpl. destruct (timer cb); reflexivity.
Qed.

(** ** Deferred work and the session reference *)

(** C7, as the code has it: the closures of [drop] and [onReadPacket] hold a
    weak reference to the session and do nothing when it no longer
    resolves; the closure of [onRespTimeout] holds the callback and the
    error only, and calls the response handler with the time-out error, no
    message and no session whether or not the session still exists. *)
Theorem deferred_tasks_and_session (locked : bool) (r : WsError) (e : WsError)
    (_seq : string) (m : WsMessage.t) (cb : CallBack) (ocb : option CallBack)
    (s : WsSession) :
  m_threadPool (drop r s) = m_threadPool s ++ [DisconnectTask] /\
  (onReadPacket decode s = drop PacketError s \/
   exists c, m_threadPool (onReadPacket decode s)
             = m_threadPool s ++ [ReadTask (decode (m_buffer s)).2 c]) /\
  (m_threadPool (onRespTimeout false _seq s) = m_threadPool s \/
   exists c, m_callbacks s !! _seq = Some c /\
             m_threadPool (onRespTimeout false _seq s)
             = m_threadPool s ++ [TimeoutTask c TimeOut]) /\
  run_task false DisconnectTask = [] /\
  run_task false (ReadTask m ocb) = [] /\
  run_task locked (TimeoutTask cb e) =
    [CallRespCallBack (respCallBack cb) (Some e) None false].
Proof.
  split; [apply drop_effect|].
  split.
  { unfold onReadPacket. destruct (decode (m_buffer s)) as [status message].
    destruct (status <? 0)%Z; [left; reflexivity|right].
    rewrite getAndRemoveRespCallback_spec. simpl. eauto. }
  split.
  { unfold onRespTimeout. rewrite getAndRemoveRespCallback_spec.
    destruct (m_callbacks s !! _seq) as [c|]; [right|left; reflexivity].
    exists c. split; reflexivity. }
  repeat split.
Qed.

(** ** Teardown *)

Lemma drops_cons (r : WsError) (rs : list WsError) (s : WsSession) :
  drops (r :: rs) s = drops rs (drop r s).
Proof. reflexivity. Qed.

(** C1, as the code has it: however often [drop] is called, the stream is
    closed by the first call that finds it set and by no later one, and the
    flag stays set; every call, though, enqueues one disconnect closure, so
    n calls give n calls of the disconnect handler once the workers ran
    them on a live session. *)
Theorem drop_closes_once_notifies_each_time (reasons : list WsError)
    (s : WsSession) :
  let s' := drops reasons s in
  m_threadPool s' = m_threadPool s ++ replicate (length reasons) DisconnectTask /\
  disconnect_calls (run_pool true (m_threadPool s')) =
    (disconnect_calls (run_pool true (m_threadPool s)) + length reasons)%nat /\
  closes (m_trace s') =
    (closes (m_trace s) +
     match reasons, m_stream s with _ :: _, Some _ => 1 | _, _ => 0 end)%nat /\
  m_stream s' = match reasons with [] => m_stream s | _ :: _ => None end /\
  m_isDrop s' = match reasons with [] => m_isDrop s | _ :: _ => true end.
Proof.
  simpl. revert s. induction reasons as [|r rs IH]; intros s.
  - simpl. rewrite app_nil_r. repeat split; lia.
  - rewrite drops_cons.
    destruct (IH (drop r s)) as (Hp & Hd & Hc & Hs & Hi).
    destruct (drop_effect r s) as (Hi1 & Hs1 & Hp1 & Hc1).
    rewrite Hd, Hc, Hs, Hi, Hp, Hp1, Hc1, Hs1, Hi1.
    rewrite run_pool_app, disconnect_calls_app. simpl.
    rewrite <- app_assoc. simpl.
    repeat split.
    + unfold disconnect_calls at 2. simpl. lia.
    + destruct rs, (m_stream s); lia.
    + destruct rs; reflexivity.
    + destruct rs; reflexivity.
Qed.

(** ** Decode failure *)

(** C4, evaluated on the code: when the decode status is negative,
    [onReadPacket] calls [drop] with [PacketError] and enqueues nothing but
    the disconnect closure; [onRead] then calls [asyncRead] all the same,
    which goes through the stream handle that [drop] has just set to null. *)
Theorem decode_failure_then_read_again (throws : bool) (s : WsSession) :
  ((decode (m_buffer s)).1 < 0)%Z ->
  onReadPacket decode s = drop PacketError s /\
  m_threadPool (onReadPacket decode s) = m_threadPool s ++ [DisconnectTask] /\
  m_callbacks (onReadPacket decode s) = m_callbacks s /\
  onRead decode false throws s = Crash NullStream (drop PacketError s).
Proof.
  intros Hneg.
  assert (Hpkt : onReadPacket decode s = drop PacketError s).
  { unfold onReadPacket. destruct (decode (m_buffer s)) as [status message].
    simpl in Hneg. apply Z.ltb_lt in Hneg. rewrite Hneg. reflexivity. }
  unfold onRead. rewrite Hpkt.
  destruct (drop_effect PacketError s) as (_ & Hs & Hp & _).
  destruct (drop_frame PacketError s) as (_ & Hc & _).
  unfold asyncRead. rewrite Hs. auto.
Qed.

(** ** After teardown *)

(** No path consults [m_isDrop] or the handle before it re-arms: on a
    session whose handle is null, a read completion without error, a write
    completion that leaves the queue non-empty and a send on an empty queue
    each end in the call through the null handle. *)
Lemma rearm_after_teardown (throws : bool) (s : WsSession) (front next : bytes)
    (rest : list bytes) (_msg : WsMessage.t) (_options : Options.t) :
  m_stream s = None ->
  fault_of (onRead decode false throws s) = Some NullStream /\
  fault_of (onWrite false throws (set_queue (front :: next :: rest) s))
    = Some NullStream /\
  fault_of (asyncSendMessage encode to_common _msg _options None throws (set_queue [] s))
    = Some NullStream.
Proof.
  intros Hnull. repeat split.
  - unfold onRead, asyncRead.
    assert (H : m_stream (onReadPacket decode s) = None).
    { unfold onReadPacket. destruct (decode (m_buffer s)) as [status message].
      destruct (status <? 0)%Z; [apply drop_effect|].
      rewrite getAndRemoveRespCallback_spec. exact Hnull. }
    rewrite H. reflexivity.
  - unfold onWrite, onWritePacket, asyncWrite. simpl. rewrite Hnull. reflexivity.
  - unfold asyncSendMessage, asyncWrite. simpl. rewrite Hnull. reflexivity.
Qed.

(** ** The outbound queue *)

Lemma asyncWrite_effect (throws : bool) (s : WsSession) :
  m_queue (state_of (asyncWrite throws s)) = m_queue s /\
  wire (m_trace (state_of (asyncWrite throws s))) =
    wire (m_trace s) ++
    match m_stream s, m_queue s, throws with
    | Some _, b :: _, false => [b]
    | _, _, _ => []
    end.
Proof.
  destruct (drop_frame WriteError s) as (Hq & _ & _ & _ & Hw).
  unfold asyncWrite.
  destruct (m_stream s); [|simpl; rewrite app_nil_r; auto].
  destruct (m_queue s) eqn:E; [simpl; rewrite app_nil_r; auto|].
  destruct throws; simpl; rewrite ?E, ?wire_app, ?app_nil_r; auto.
Qed.

Lemma asyncRead_frame (throws : bool) (s : WsSession) :
  m_queue (state_of (asyncRead throws s)) = m_queue s /\
  wire (m_trace (state_of (asyncRead throws s))) = wire (m_trace s).
Proof.
  destruct (drop_frame ReadError s) as (Hq & _ & _ & _ & Hw).
  unfold asyncRead. destruct (m_stream s); [|auto].
  destruct throws; simpl; rewrite ?wire_app, ?app_nil_r; auto.
Qed.

Lemma onReadPacket_frame (s : WsSession) :
  m_queue (onReadPacket decode s) = m_queue s /\
  wire (m_trace (onReadPacket decode s)) = wire (m_trace s).
Proof.
  destruct (drop_frame PacketError s) as (Hq & _ & _ & _ & Hw).
  unfold onReadPacket. destruct (decode (m_buffer s)) as [status message].
  destruct (status <? 0)%Z; [auto|].
  rewrite getAndRemoveRespCallback_spec. simpl. auto.
Qed.

Lemma onRead_frame (_ec throws : bool) (s : WsSession) :
  m_queue (state_of (onRead decode _ec throws s)) = m_queue s /\
  wire (m_trace (state_of (onRead decode _ec throws s))) = wire (m_trace s).
Proof.
  destruct (drop_frame ReadError s) as (Hq & _ & _ & _ & Hw).
  unfold onRead. destruct _ec; [simpl; auto|].
  destruct (asyncRead_frame throws (onReadPacket decode s)) as [Hq1 Hw1].
  destruct (onReadPacket_frame s) as [Hq2 Hw2].
  rewrite Hq1, Hw1, Hq2, Hw2. auto.
Qed.

Lemma ping_pong_frame (throws : bool) (s : WsSession) :
  (m_queue (ping throws s) = m_queue s /\
   wire (m_trace (ping throws s)) = wire (m_trace s)) /\
  (m_queue (pong throws s) = m_queue s /\
   wire (m_trace (pong throws s)) = wire (m_trace s)).
Proof.
  destruct (drop_frame PingError s) as (Hq & _ & _ & _ & Hw).
  destruct (drop_frame PongError s) as (Hq' & _ & _ & _ & Hw').
  unfold ping, pong. destruct (m_stream s); [|auto].
  destruct throws; simpl; rewrite ?wire_app, ?app_nil_r; auto.
Qed.

Lemma onRespTimeout_frame (e : bool) (_seq : string) (s : WsSession) :
  m_queue (onRespTimeout e _seq s) = m_queue s /\
  wire (m_trace (onRespTimeout e _seq s)) = wire (m_trace s).
Proof.
  unfold onRespTimeout. destruct e; [auto|].
  rewrite getAndRemoveRespCallback_spec.
  destruct (m_callbacks s !! _seq); simpl; auto.
Qed.

(** A send appends its buffer at the back and gives the stream a buffer
    only when the queue was empty just before. *)
Lemma asyncSendMessage_effect (_msg : WsMessage.t) (_options : Options.t)
    (_respFunc : option RespCallBack) (throws : bool) (s : WsSession) :
  let s' := state_of (asyncSendMessage encode to_common _msg _options _respFunc throws s) in
  m_queue s' = m_queue s ++ [encode _msg] /\
  wire (m_trace s') =
    wire (m_trace s) ++
    match m_queue s, m_stream s, throws with
    | [], Some _, false => [encode _msg]
    | _, _, _ => []
    end.
Proof.
  simpl. unfold asyncSendMessage.
  set (s1 := match _respFunc with Some _ => _ | None => s end).
  assert (H1 : m_queue s1 = m_queue s /\ m_trace s1 = m_trace s /\
               m_stream s1 = m_stream s).
  { subst s1. destruct _respFunc; [|auto].
    destruct (0 <? _)%Z; simpl; auto. }
  destruct H1 as (Hq & Ht & Hs). rewrite <- Hq, <- Ht, <- Hs.
  destruct (m_queue s1) eqn:E.
  - destruct (asyncWrite_effect throws (set_queue ([] ++ [encode _msg]) s1))
      as [Hq1 Hw1].
    rewrite Hq1, Hw1. simpl. split; [reflexivity|].
    destruct (m_stream s1), throws; reflexivity.
  - simpl. rewrite app_nil_r. auto.
Qed.

(** A write completion without error pops the head and gives the stream
    the new head when there is one. *)
Lemma onWrite_effect (throws : bool) (s : WsSession) (front : bytes)
    (rest : list bytes) :
  let s' := state_of (onWrite false throws (set_queue (front :: rest) s)) in
  m_queue s' = rest /\
  wire (m_trace s') =
    wire (m_trace s) ++
    match rest, m_stream s, throws with
    | next :: _, Some _, false => [next]
    | _, _, _ => []
    end.
Proof.
  simpl. unfold onWrite, onWritePacket. simpl.
  destruct rest as [|next rest'].
  - simpl. rewrite app_nil_r. auto.
  - destruct (asyncWrite_effect throws
                (set_queue (next :: rest') (set_queue (front :: next :: rest') s)))
      as [Hq1 Hw1].
    rewrite Hq1, Hw1. simpl. split; [reflexivity|].
    destruct (m_stream s), throws; reflexivity.
Qed.

Ltac world_simpl :=
  unfold fifo_inv, after;
  cbn [session submitted wacks state_of onWrite timer_wait_handler].

Lemma set_queue_same (s : WsSession) : set_queue (m_queue s) s = s.
Proof. destruct s; reflexivity. Qed.

Lemma take_le_1_app (k : nat) (q : list bytes) (b x : bytes) :
  (k <= 1)%nat -> take k ((b :: q) ++ [x]) = take k (b :: q).
Proof. intros Hk. destruct k as [|[|k]]; [reflexivity|reflexivity|lia]. Qed.

Lemma fifo_inv_step (i : Input) (w : World) :
  fifo_inv w -> fifo_inv (step decode encode to_common i w).
Proof.
  intros (popped & k & Hsub & Hwire & Hk & Hack).
  unfold step. destruct (crashed w) eqn:Hcr; [exists popped, k; auto|].
  destruct i as [_msg _options _respFunc throws | _ec throws | _ec data throws
                | t e | _reason | throws | throws].
  - (* asyncSendMessage *)
    destruct (asyncSendMessage_effect _msg _options _respFunc throws (session w))
      as [Hq Hw].
    world_simpl. rewrite Hq, Hw, Hsub, Hwire.
    destruct (m_queue (session w)) as [|b q] eqn:E.
    + exists popped,
        (match m_stream (session w), throws with Some _, false => 1 | _, _ => 0 end)%nat.
      rewrite take_nil, !app_nil_r.
      destruct (m_stream (session w)), throws; simpl; repeat split; auto.
    + exists popped, k. rewrite take_le_1_app by assumption.
      rewrite app_nil_r, app_assoc. auto.
  - (* onWrite *)
    case_bool_decide as Hfly; [|exists popped, k; auto].
    unfold writes_in_flight in Hfly. rewrite Hwire, length_app in Hfly.
    destruct _ec.
    + destruct (drop_frame WriteError (session w)) as (Hq & _ & _ & _ & Hw).
      world_simpl. rewrite Hq, Hw. exists popped, k. auto with lia.
    + destruct (m_queue (session w)) as [|front rest] eqn:E;
        [rewrite take_nil in Hfly; simpl in Hfly; lia|].
      destruct k as [|[|k]]; [simpl in Hfly; lia| |lia].
      simpl in Hfly. simpl in Hwire.
      destruct (onWrite_effect throws (session w) front rest) as [Hq Hw].
      rewrite <- E, set_queue_same in Hq, Hw.
      unfold fifo_inv, after. cbn [session submitted wacks state_of].
      rewrite Hq, Hw, Hwire, Hsub.
      exists (popped ++ [front]),
        (match rest, m_stream (session w), throws with
         | _ :: _, Some _, false => 1 | _, _, _ => 0 end)%nat.
      rewrite length_app. simpl.
      destruct rest, (m_stream (session w)), throws; simpl;
        rewrite <- ?app_assoc, ?app_nil_r; simpl; repeat split; auto with lia.
  - (* onRead *)
    case_bool_decide; [|exists popped, k; auto].
    destruct (onRead_frame _ec throws
                (set_buffer (m_buffer (session w) ++ data) (session w))) as [Hq Hw].
    unfold fifo_inv, after. cbn [session submitted wacks].
    rewrite Hq, Hw. exists popped, k. auto.
  - (* the timer handler *)
    destruct (m_ioc (session w) !! t) as [[ms sq]|]; [|exists popped, k; auto].
    case_bool_decide; [exists popped, k; auto|].
    destruct (onRespTimeout_frame e sq (session w)) as [Hq Hw].
    world_simpl. rewrite Hq, Hw. exists popped, k. auto.
  - (* drop *)
    destruct (drop_frame _reason (session w)) as (Hq & _ & _ & _ & Hw).
    world_simpl. rewrite Hq, Hw. exists popped, k. auto.
  - (* ping *)
    destruct (ping_pong_frame throws (session w)) as [[Hq Hw] _].
    world_simpl. rewrite Hq, Hw. exists popped, k. auto.
  - (* pong *)
    destruct (ping_pong_frame throws (session w)) as [_ [Hq Hw]].
    world_simpl. rewrite Hq, Hw. exists popped, k. auto.
Qed.

Lemma fifo_inv_run (inputs : list Input) (w : World) :
  fifo_inv w -> fifo_inv (run decode encode to_common inputs w).
Proof.
  revert w. induction inputs as [|i inputs IH]; intros w Hw; [exact Hw|].
  simpl. apply IH, fifo_inv_step, Hw.
Qed.

Lemma fifo_inv_init (timeout : Z) (connectHandler : bool) :
  fifo_inv (init_world timeout connectHandler).
Proof.
  exists [], 0%nat. destruct connectHandler; simpl; auto.
Qed.

Lemma fifo_inv_sound (w : World) :
  fifo_inv w ->
  wire (m_trace (session w)) `prefix_of` submitted w /\
  (writes_in_flight w <= 1)%nat.
Proof.
  intros (popped & k & Hsub & Hwire & Hk & Hack). split.
  - rewrite Hsub, Hwire. apply prefix_app, prefix_take.
  - unfold writes_in_flight. rewrite Hwire, length_app, length_take. lia.
Qed.

(** C3: the outbound queue is first in, first out.  In every state reached
    from a started session by sends, completions, timers, pings, pongs and
    drops in any order, the stream has been given a prefix of the submitted
    buffers, in submission order, and at most one write is in flight.  A
    send appends its buffer and gives the stream a buffer only when the
    queue was empty just before; a write completion without error pops the
    head and gives the stream the new head when there is one. *)
Theorem outbound_queue_fifo :
  (forall (timeout : Z) (connectHandler : bool) (inputs : list Input),
     let w := run decode encode to_common inputs (init_world timeout connectHandler) in
     wire (m_trace (session w)) `prefix_of` submitted w /\
     (writes_in_flight w <= 1)%nat) /\
  (forall (_msg : WsMessage.t) (_options : Options.t)
          (_respFunc : option RespCallBack) (throws : bool) (s : WsSession),
     let s' := state_of (asyncSendMessage encode to_common _msg _options _respFunc throws s) in
     m_queue s' = m_queue s ++ [encode _msg] /\
     wire (m_trace s') =
       wire (m_trace s) ++
       match m_queue s, m_stream s, throws with
       | [], Some _, false => [encode _msg]
       | _, _, _ => []
       end) /\
  (forall (throws : bool) (s : WsSession) (front : bytes) (rest : list bytes),
     let s' := state_of (onWrite false throws (set_queue (front :: rest) s)) in
     m_queue s' = rest /\
     wire (m_trace s') =
       wire (m_trace s) ++
       match rest, m_stream s, throws with
       | next :: _, Some _, false => [next]
       | _, _, _ => []
       end).
Proof.
  split; [|split].
  - intros timeout connectHandler inputs w.
    apply fifo_inv_sound, fifo_inv_run, fifo_inv_init.
  - intros. apply asyncSendMessage_effect.
  - intros. apply onWrite_effect.
Qed.

End Facts.

(** ** The claims at sample inputs *)

Lemma ping_pong_null_stream_witness :
  m_stream torn_down = None /\
  ping true torn_down = torn_down /\ pong true torn_down = torn_down.
Proof.
  split; [reflexivity|].
  apply (ping_pong_null_stream true torn_down). reflexivity.
Defined.

Lemma unknown_seq_to_recv_handler_witness :
  sample_decode (m_buffer unsolicited_b) = (0%Z, msg_b) /\
  m_callbacks unsolicited_b !! WsMessage.seq msg_b = None /\
  m_threadPool (onReadPacket sample_decode unsolicited_b) = [ReadTask msg_b None] /\
  run_task true (ReadTask msg_b None) = [CallRecvMessageHandler msg_b].
Proof.
  split; [reflexivity|]. split; [reflexivity|].
  destruct (unknown_seq_to_recv_handler sample_decode unsolicited_b 0 msg_b)
    as (_ & Hread & _ & _ & _ & Hrun).
  - reflexivity.
  - lia.
  - reflexivity.
  - split; [rewrite Hread; reflexivity | exact Hrun].
Defined.

Lemma take_and_remove_claims_once_witness :
  m_callbacks awaiting_a !! "a" = Some (mkCallBack 7 None) /\
  m_threadPool (onRespTimeout false "a" (onReadPacket sample_decode awaiting_a)) =
    [ReadTask msg_a (Some (mkCallBack 7 None))] /\
  m_threadPool (onReadPacket sample_decode (onRespTimeout false "a" awaiting_a)) =
    [TimeoutTask (mkCallBack 7 None) TimeOut; ReadTask msg_a None].
Proof.
  split; [reflexivity|].
  destruct (take_and_remove_claims_once sample_decode awaiting_a
              (mkCallBack 7 None) 0 msg_a)
    as (_ & _ & Hreply & Hexpiry & _).
  - reflexivity.
  - reflexivity.
  - lia.
  - split; [exact Hreply | exact Hexpiry].
Defined.


(** Where the conversion does change the session default: with an unsigned
    common type of 32 bits and a default of -1, a send whose options give no
    timeout arms a timer of 4294967295 ms; with one type for both fields it
    arms none. *)
Lemma negative_default_and_the_common_type :
  m_ioc (state_of (asyncSendMessage sample_encode to_uint32 msg_a no_timeout
                     (Some 7%nat) false (fresh (-1) false)))
    = [(4294967295%Z, "a")] /\
  m_ioc (state_of (asyncSendMessage sample_encode same_type msg_a no_timeout
                     (Some 7%nat) false (fresh (-1) false)))
    = [].
Proof. split; reflexivity. Qed.

Lemma decode_failure_then_read_again_witness :
  ((sample_decode (m_buffer (fresh 0 false))).1 < 0)%Z /\
  onRead sample_decode false false (fresh 0 false) =
    Crash NullStream (drop PacketError (fresh 0 false)).
Proof.
  split; [reflexivity|].
  apply (decode_failure_then_read_again sample_decode false (fresh 0 false)).
  reflexivity.
Defined.

(** C1 as stated fails: two calls of [drop] on a started session close the
    stream once but leave two disconnect closures, which call the
    disconnect handler twice. *)
Lemma drop_twice_notifies_twice :
  closes (m_trace (drops [ReadError; WriteError] (fresh 0 false))) = 1%nat /\
  disconnect_calls
    (run_pool true (m_threadPool (drops [ReadError; WriteError] (fresh 0 false))))
    = 2%nat /\
  disconnect_calls
    (run_pool true (m_threadPool (drops [ReadError; WriteError] (fresh 0 false))))
    <> 1%nat.
Proof.
  split; [reflexivity|]. split; [reflexivity|]. vm_compute. discriminate.
Qed.

(** C7 as stated fails: the closure that [onRespTimeout] gives to the
    worker pool calls the response handler although the session no longer
    resolves. *)
Lemma timeout_task_runs_without_session :
  ~ (forall t : Task,
       In t (m_threadPool (onRespTimeout false "a" awaiting_a)) ->
       run_task false t = []).
Proof.
  intros H.
  specialize (H (TimeoutTask (mkCallBack 7 None) TimeOut)).
  assert (Hin : In (TimeoutTask (mkCallBack 7 None) TimeOut)
                  (m_threadPool (onRespTimeout false "a" awaiting_a))).
  { left. reflexivity. }
  specialize (H Hin). discriminate H.
Qed.

(** C5, evaluated on the code.  A read completion with an empty frame drops
    the session and then calls [asyncRead] through the null handle; a send
    on a dropped session with an empty queue calls [asyncWrite] through the
    null handle; and a write completion that arrives after the drop, with a
    second buffer queued, pops the first and calls [asyncWrite] through the
    null handle.  In each the flag is set before the call. *)
Theorem io_rearmed_after_drop :
  let bad_frame :=
    run sample_decode sample_encode same_type [ReadCompletes false [] false] (init_world 0 false) in
  let send_after_drop :=
    run sample_decode sample_encode same_type
      [CallDrop PingError; CallSend msg_a no_timeout None false] (init_world 0 false) in
  let late_completion :=
    step sample_decode sample_encode same_type (WriteCompletes false false) dropped_mid_write in
  (crashed bad_frame = Some NullStream /\ m_isDrop (session bad_frame) = true) /\
  (crashed send_after_drop = Some NullStream /\
   m_isDrop (session send_after_drop) = true) /\
  (crashed dropped_mid_write = None /\
   m_isDrop (session dropped_mid_write) = true /\
   writes_in_flight dropped_mid_write = 1%nat /\
   crashed late_completion = Some NullStream /\
   m_queue (session late_completion) = [sample_encode msg_b]).
Proof.
  vm_compute. repeat split.
Qed.

(** * Further properties of the session *)

Section More.

Variable decode : bytes -> Z * WsMessage.t.
Variable encode : WsMessage.t -> bytes.
Variable to_common : Z -> Z.

(** ** disconnect *)

(** X1: [disconnect] closes the stream when the handle is set and clears the
    handle; a second call does nothing.  It neither sets the dropped flag
    nor gives the worker pool a closure: only [drop] notifies. *)
Theorem disconnect_idempotent_and_silent (s : WsSession) :
  disconnect (disconnect s) = disconnect s /\
  m_stream (disconnect s) = None /\
  closes (m_trace (disconnect s)) =
    (closes (m_trace s) + match m_stream s with Some _ => 1 | None => 0 end)%nat /\
  m_isDrop (disconnect s) = m_isDrop s /\
  m_threadPool (disconnect s) = m_threadPool s /\
  m_queue (disconnect s) = m_queue s /\
  m_callbacks (disconnect s) = m_callbacks s.
Proof.
  unfold disconnect. destruct (m_stream s) eqn:E; simpl.
  - rewrite closes_app. simpl. repeat split; reflexivity.
  - rewrite E. repeat split; auto with lia.
Qed.

(** ** ping and pong on a live stream *)

(** X2: When the stream throws during [ping] (resp. [pong]) the session is
    torn down with reason [PingError] (resp. [PongError]): the log line,
    one close, one disconnect closure; every later [ping] or [pong] is then
    a no-op.  When the stream does not throw, the control frame is the only
    effect. *)
Theorem ping_pong_failure_tears_down (h : nat) (t1 t2 : bool) (s : WsSession) :
  m_stream s = Some h ->
  (m_trace (ping true s) = m_trace s ++ [LogDrop PingError; StreamClose] /\
   m_threadPool (ping true s) = m_threadPool s ++ [DisconnectTask] /\
   m_isDrop (ping true s) = true /\
   ping t1 (ping true s) = ping true s /\
   pong t2 (ping true s) = ping true s) /\
  (m_trace (pong true s) = m_trace s ++ [LogDrop PongError; StreamClose] /\
   m_threadPool (pong true s) = m_threadPool s ++ [DisconnectTask] /\
   m_isDrop (pong true s) = true /\
   ping t1 (pong true s) = pong true s /\
   pong t2 (pong true s) = pong true s) /\
  ping false s = record StreamPing s /\
  pong false s = record StreamPong s.
Proof.
  intros Hs. unfold ping, pong, drop, disconnect.
  repeat (rewrite ?Hs; simpl).
  rewrite <- ?app_assoc. simpl. repeat split; reflexivity.
Qed.

(** ** Starting the session *)

(** X3: A failed handshake drops the session with [AcceptError]: the connect
    handler is not called and no read is armed. *)
Theorem onHandshake_failure (throws : bool) (s : WsSession) :
  onHandshake true throws s = Done (drop AcceptError s) /\
  m_trace (drop AcceptError s) =
    m_trace s ++ LogDrop AcceptError :: match m_stream s with Some _ => [StreamClose] | None => [] end /\
  reads_issued (m_trace (drop AcceptError s)) = reads_issued (m_trace s) /\
  m_threadPool (drop AcceptError s) = m_threadPool s ++ [DisconnectTask].
Proof.
  unfold onHandshake, drop, disconnect, reads_issued. simpl.
  destruct (m_stream s); simpl; rewrite ?omap_app, ?length_app; simpl;
    rewrite <- ?app_assoc; simpl; repeat split; auto with lia.
Qed.

(** X4: A client start and a successful server handshake do the same: the
    connect handler, when set, is called first, then the first read is
    armed; on the server side this follows the handshake request.  With the
    handle null, [startAsServer] goes through the null handle. *)
Theorem start_client_and_server_agree (throws : bool) (h : nat) (s : WsSession) :
  m_stream s = Some h ->
  startAsClient throws s = onHandshake false throws s /\
  startAsClient false s =
    Done (record StreamAsyncRead
            (if m_connectHandler s then record ConnectHandlerCall s else s)) /\
  startAsServer s = Done (record StreamAsyncHandshake s) /\
  m_trace (state_of (onHandshake false false (state_of (startAsServer s)))) =
    m_trace s ++ StreamAsyncHandshake ::
      (if m_connectHandler s then [ConnectHandlerCall] else []) ++ [StreamAsyncRead] /\
  startAsServer (set_stream None s) = Crash NullStream (set_stream None s).
Proof.
  intros Hs. unfold startAsClient, onHandshake, startAsServer, asyncRead.
  destruct (m_connectHandler s) eqn:Hc; repeat (rewrite ?Hs, ?Hc; simpl);
    rewrite <- ?app_assoc; simpl; repeat split; reflexivity.
Qed.

(** ** The registry *)

(** X5: Registering and then taking gives the callback back and erases the
    entry, restoring the session when the identifier was free; a lookup
    with [_remove = false] gives the callback and keeps the entry; other
    identifiers are not affected; registering twice under one identifier
    keeps only the second callback. *)
Theorem registry_round_trip (_seq : string) (cb cb' : CallBack) (s : WsSession) :
  let s1 := addRespCallback _seq cb s in
  getAndRemoveRespCallback _seq true s1 =
    (Some cb, set_callbacks (delete _seq (m_callbacks s)) s) /\
  (m_callbacks s !! _seq = None ->
   getAndRemoveRespCallback _seq true s1 = (Some cb, s)) /\
  getAndRemoveRespCallback _seq false s1 = (Some cb, s1) /\
  (forall (k : string) (r : bool),
     k <> _seq -> (getAndRemoveRespCallback k r s1).1 = m_callbacks s !! k) /\
  addRespCallback _seq cb' s1 = addRespCallback _seq cb' s.
Proof.
  simpl. unfold getAndRemoveRespCallback, addRespCallback. simpl.
  rewrite lookup_insert_eq, delete_insert_eq, insert_insert_eq.
  repeat split.
  - intros Hfree. rewrite delete_id by assumption. destruct s; reflexivity.
  - intros k r Hk. rewrite lookup_insert_ne by congruence.
    destruct (m_callbacks s !! k); reflexivity.
Qed.

(** ** Time-outs stay local *)

Lemma onRespTimeout_local (e : bool) (_seq : string) (s : WsSession) :
  let s' := onRespTimeout e _seq s in
  m_isDrop s' = m_isDrop s /\ m_stream s' = m_stream s /\
  m_queue s' = m_queue s /\ m_buffer s' = m_buffer s /\
  m_ioc s' = m_ioc s /\ m_trace s' = m_trace s /\
  (forall k : string, k <> _seq -> m_callbacks s' !! k = m_callbacks s !! k) /\
  m_threadPool s' =
    m_threadPool s ++
    match e, m_callbacks s !! _seq with
    | false, Some cb => [TimeoutTask cb TimeOut]
    | _, _ => []
    end.
Proof.
  simpl. unfold onRespTimeout. destruct e.
  - rewrite app_nil_r. repeat split; reflexivity.
  - rewrite getAndRemoveRespCallback_spec.
    destruct (m_callbacks s !! _seq) eqn:E; simpl; rewrite ?app_nil_r;
      repeat split; try reflexivity; intros k Hk; apply lookup_delete_ne; congruence.
Qed.

(** X6: A timer expiry touches one request only: the flag, the handle, the
    queue, the read buffer, the timers and the calls made on the stream are
    as before, every other identifier keeps its entry, and the worker pool
    gets at most the time-out closure of the entry found. *)
Theorem onRespTimeout_is_local (e : bool) (_seq : string) (s : WsSession) :
  let s' := onRespTimeout e _seq s in
  m_isDrop s' = m_isDrop s /\ m_stream s' = m_stream s /\
  m_queue s' = m_queue s /\ m_buffer s' = m_buffer s /\
  m_ioc s' = m_ioc s /\ m_trace s' = m_trace s /\
  (forall k : string, k <> _seq -> m_callbacks s' !! k = m_callbacks s !! k) /\
  m_threadPool s' =
    m_threadPool s ++
    match e, m_callbacks s !! _seq with
    | false, Some cb => [TimeoutTask cb TimeOut]
    | _, _ => []
    end.
Proof. exact (onRespTimeout_local e _seq s). Qed.

(** ** Send, then reply or expiry *)

Lemma asyncSendMessage_registration (_msg : WsMessage.t) (_options : Options.t)
    (f : RespCallBack) (throws : bool) (s : WsSession) :
  let timeout :=
    if (0 <? Options.timeout _options)%Z then Options.timeout _options
    else to_common (m_sendMsgTimeout s) in
  let s' := state_of (asyncSendMessage encode to_common _msg _options (Some f) throws s) in
  m_callbacks s' !! WsMessage.seq _msg =
    Some (mkCallBack f (if (0 <? timeout)%Z then Some (length (m_ioc s)) else None)) /\
  m_ioc s' =
    m_ioc s ++ (if (0 <? timeout)%Z then [(timeout, WsMessage.seq _msg)] else []).
Proof.
  intros timeout s'. subst s'. unfold asyncSendMessage. fold timeout.
  set (s1 := if (0 <? timeout)%Z then _ else _).
  assert (H1 : m_callbacks s1 !! WsMessage.seq _msg =
               Some (mkCallBack f (if (0 <? timeout)%Z
                                   then Some (length (m_ioc s)) else None)) /\
               m_ioc s1 = m_ioc s ++ (if (0 <? timeout)%Z
                                      then [(timeout, WsMessage.seq _msg)] else [])).
  { subst s1. destruct (0 <? timeout)%Z; simpl.
    - split; [apply lookup_insert_eq | reflexivity].
    - split; [apply lookup_insert_eq | symmetry; apply app_nil_r]. }
  destruct H1 as [Hc Hi].
  destruct (m_queue s1) eqn:Eq.
  - destruct (asyncWrite_frame throws (set_queue ([] ++ [encode _msg]) s1))
      as (_ & Hc' & Hi').
    rewrite Hc', Hi'. simpl. auto.
  - simpl. auto.
Qed.

Lemma asyncSendMessage_live (_msg : WsMessage.t) (_options : Options.t)
    (_respFunc : option RespCallBack) (h : nat) (s : WsSession) :
  m_stream s = Some h ->
  let o := asyncSendMessage encode to_common _msg _options _respFunc false s in
  fault_of o = None /\
  m_stream (state_of o) = Some h /\
  m_isDrop (state_of o) = m_isDrop s /\
  m_threadPool (state_of o) = m_threadPool s /\
  m_buffer (state_of o) = m_buffer s.
Proof.
  intros Hs. simpl. unfold asyncSendMessage.
  set (s1 := match _respFunc with Some _ => _ | None => s end).
  assert (H1 : m_stream s1 = Some h /\ m_isDrop s1 = m_isDrop s /\
               m_threadPool s1 = m_threadPool s /\ m_buffer s1 = m_buffer s).
  { subst s1. destruct _respFunc; [|auto].
    destruct (0 <? _)%Z; simpl; auto. }
  destruct H1 as (Hs1 & Hd1 & Hp1 & Hb1).
  destruct (m_queue s1) eqn:E; unfold asyncWrite; simpl; rewrite ?Hs1; simpl; auto.
Qed.

(** X7: A request sent with a positive timeout and answered: the reply closure
    cancels the very timer that the send armed and calls the handler with
    the reply and no error; the entry is gone, so a late expiry of that
    timer does nothing. *)
Theorem reply_cancels_the_armed_timer (_msg reply : WsMessage.t)
    (_options : Options.t) (f : RespCallBack) (h : nat) (data : bytes)
    (status : Z) (s : WsSession) :
  m_stream s = Some h ->
  (0 < Options.timeout _options)%Z ->
  decode data = (status, reply) ->
  (0 <= status)%Z ->
  WsMessage.seq reply = WsMessage.seq _msg ->
  let sent := asyncSendMessage encode to_common _msg _options (Some f) false s in
  let t := length (m_ioc s) in
  let s' := onReadPacket decode (set_buffer data (state_of sent)) in
  fault_of sent = None /\
  m_ioc s' !! t = Some (Options.timeout _options, WsMessage.seq _msg) /\
  m_threadPool s' = m_threadPool s ++ [ReadTask reply (Some (mkCallBack f (Some t)))] /\
  run_task true (ReadTask reply (Some (mkCallBack f (Some t)))) =
    [CancelTimer t; CallRespCallBack f None (Some reply) true] /\
  m_callbacks s' !! WsMessage.seq _msg = None /\
  onRespTimeout false (WsMessage.seq _msg) s' = s'.
Proof.
  intros Hs Hpos Hdec Hst Hseq sent t s'.
  destruct (asyncSendMessage_live _msg _options (Some f) h s Hs)
    as (Hf & _ & _ & Hp & _).
  destruct (asyncSendMessage_registration _msg _options f false s) as [Hc Hi].
  fold sent in Hf, Hp, Hc, Hi.
  apply Z.ltb_lt in Hpos. rewrite Hpos in Hc, Hi. rewrite Hpos in Hc, Hi.
  assert (Hlt : (status <? 0)%Z = false) by (apply Z.ltb_ge; lia).
  assert (Hs' : s' = enqueue (ReadTask reply (Some (mkCallBack f (Some t))))
                  (set_callbacks (delete (WsMessage.seq _msg) (m_callbacks (state_of sent)))
                     (set_buffer [] (set_buffer data (state_of sent))))).
  { subst s'. unfold onReadPacket. simpl. rewrite Hdec, Hlt, Hseq.
    rewrite getAndRemoveRespCallback_spec. simpl. rewrite Hc. reflexivity. }
  rewrite Hs'. simpl. rewrite Hi, Hp.
  split; [exact Hf|]. split.
  { rewrite lookup_app_r by reflexivity. subst t.
    rewrite Nat.sub_diag. reflexivity. }
  split; [reflexivity|]. split; [reflexivity|].
  split; [apply lookup_delete_eq|].
  unfold onRespTimeout. rewrite getAndRemoveRespCallback_spec. simpl.
  rewrite lookup_delete_eq, delete_delete_eq. reflexivity.
Qed.



(** ** The life cycle over whole runs *)

Lemma reads_issued_app (a b : list Event) :
  reads_issued (a ++ b) = (reads_issued a + reads_issued b)%nat.
Proof. unfold reads_issued. rewrite omap_app. apply length_app. Qed.

Lemma stream_calls_app (a b : list Event) :
  stream_calls (a ++ b) = stream_calls a ++ stream_calls b.
Proof. apply omap_app. Qed.

Ltac open_session :=
  unfold onRead, onReadPacket, asyncRead, onWrite, onWritePacket, asyncWrite,
    asyncSendMessage, timer_wait_handler, onRespTimeout, getAndRemoveRespCallback,
    addRespCallback, ping, pong, drop, disconnect in *.

Ltac trace_simpl :=
  simpl in *;
  rewrite ?closes_app, ?reads_issued_app, ?stream_calls_app, ?wire_app in *;
  unfold closes, reads_issued, stream_calls, wire in *;
  simpl in *.

Lemma drop_life (r : WsError) (s : WsSession) :
  life_ok s ->
  life_ok (drop r s) /\
  reads_issued (m_trace (drop r s)) = reads_issued (m_trace s).
Proof.
  intros [Hd Hc]. unfold life_ok. open_session.
  simpl. destruct (m_stream s) eqn:E; trace_simpl; rewrite ?E, ?Hc; auto with lia.
Qed.

Lemma ping_pong_life (throws : bool) (s : WsSession) :
  life_ok s ->
  (life_ok (ping throws s) /\
   reads_issued (m_trace (ping throws s)) = reads_issued (m_trace s)) /\
  (life_ok (pong throws s) /\
   reads_issued (m_trace (pong throws s)) = reads_issued (m_trace s)).
Proof.
  intros [Hd Hc]. unfold life_ok. open_session. simpl.
  destruct (m_stream s) eqn:E, throws; trace_simpl; rewrite ?E, ?Hc; auto with lia.
Qed.

Lemma onRespTimeout_life (e : bool) (_seq : string) (s : WsSession) :
  life_ok s ->
  life_ok (onRespTimeout e _seq s) /\
  reads_issued (m_trace (onRespTimeout e _seq s)) = reads_issued (m_trace s).
Proof.
  intros Hl. destruct (onRespTimeout_local e _seq s)
    as (Hd & Hs & _ & _ & _ & Ht & _).
  unfold life_ok in *. rewrite Hd, Hs, Ht. auto.
Qed.

Lemma asyncWrite_life (throws : bool) (s : WsSession) :
  life_ok s ->
  life_ok (state_of (asyncWrite throws s)) /\
  reads_issued (m_trace (state_of (asyncWrite throws s))) = reads_issued (m_trace s).
Proof.
  intros Hl. destruct (drop_life WriteError s Hl) as [Hl' Hr'].
  unfold asyncWrite. destruct (m_stream s) eqn:E; [|auto].
  destruct (m_queue s); [auto|]. destruct throws; [auto|].
  destruct Hl as [Hd Hc]. unfold life_ok. trace_simpl. rewrite E in *. auto with lia.
Qed.

Lemma onWrite_life (_ec throws : bool) (s : WsSession) :
  life_ok s ->
  life_ok (state_of (onWrite _ec throws s)) /\
  reads_issued (m_trace (state_of (onWrite _ec throws s))) = reads_issued (m_trace s).
Proof.
  intros Hl. unfold onWrite, onWritePacket.
  destruct _ec; [apply drop_life, Hl|].
  destruct (m_queue s) as [|front rest]; [auto|].
  destruct rest as [|next rest]; [exact (conj Hl eq_refl)|].
  apply (asyncWrite_life throws (set_queue (next :: rest) s)). exact Hl.
Qed.

Lemma asyncSendMessage_life (_msg : WsMessage.t) (_options : Options.t)
    (_respFunc : option RespCallBack) (throws : bool) (s : WsSession) :
  life_ok s ->
  let o := asyncSendMessage encode to_common _msg _options _respFunc throws s in
  life_ok (state_of o) /\
  reads_issued (m_trace (state_of o)) = reads_issued (m_trace s).
Proof.
  intros Hl. simpl. unfold asyncSendMessage.
  set (s1 := match _respFunc with Some _ => _ | None => s end).
  assert (H1 : life_ok s1 /\ m_trace s1 = m_trace s).
  { subst s1. destruct _respFunc; [|auto].
    destruct (0 <? _)%Z; split; try reflexivity; exact Hl. }
  destruct H1 as [Hl1 Ht1]. rewrite <- Ht1.
  destruct (m_queue s1); [|exact (conj Hl1 eq_refl)].
  apply (asyncWrite_life throws (set_queue ([] ++ [encode _msg]) s1)). exact Hl1.
Qed.

Lemma onReadPacket_life (s : WsSession) :
  life_ok s ->
  life_ok (onReadPacket decode s) /\
  reads_issued (m_trace (onReadPacket decode s)) = reads_issued (m_trace s).
Proof.
  intros Hl. unfold onReadPacket. destruct (decode (m_buffer s)) as [status message].
  destruct (status <? 0)%Z; [apply drop_life, Hl|].
  rewrite getAndRemoveRespCallback_spec. exact (conj Hl eq_refl).
Qed.

(** A read completion arms at most one read, and exactly one when it
    returns with the session still up. *)
Lemma onRead_life (_ec throws : bool) (s : WsSession) :
  life_ok s ->
  let o := onRead decode _ec throws s in
  life_ok (state_of o) /\
  (reads_issued (m_trace s) <= reads_issued (m_trace (state_of o)))%nat /\
  (reads_issued (m_trace (state_of o)) <= S (reads_issued (m_trace s)))%nat /\
  (fault_of o = None -> m_isDrop (state_of o) = false ->
   reads_issued (m_trace (state_of o)) = S (reads_issued (m_trace s))).
Proof.
  intros Hl. cbv zeta. unfold onRead. destruct _ec.
  - destruct (drop_life ReadError s Hl) as [Hl' Hr']. cbn [state_of fault_of].
    rewrite Hr'. split; [exact Hl'|]. repeat split; auto with lia.
    intros _ Hup. destruct (drop_effect ReadError s) as (Hd & _). congruence.
  - destruct (onReadPacket_life s Hl) as [Hl1 Hr1]. rewrite <- Hr1.
    set (s1 := onReadPacket decode s) in *.
    destruct (drop_life ReadError s1 Hl1) as [Hl' Hr'].
    unfold asyncRead. destruct (m_stream s1) eqn:E.
    + destruct throws; cbn [state_of fault_of].
      * rewrite Hr'. split; [exact Hl'|]. repeat split; auto with lia.
        intros _ Hup. destruct (drop_effect ReadError s1) as (Hd & _). congruence.
      * destruct Hl1 as [Hd Hc]. unfold life_ok. trace_simpl. rewrite E in *.
        repeat split; auto with lia.
    + cbn [state_of fault_of]. split; [exact Hl1|].
      repeat split; auto with lia. discriminate.
Qed.

Ltac stays_dropped_tac :=
  open_session; simpl;
  repeat (case_match; simpl in *; try congruence); try congruence.

Lemma ping_pong_stays_dropped (throws : bool) (s : WsSession) :
  m_isDrop s = true ->
  m_isDrop (ping throws s) = true /\ m_isDrop (pong throws s) = true.
Proof. intros Hd. split; stays_dropped_tac. Qed.

Lemma asyncWrite_stays_dropped (throws : bool) (s : WsSession) :
  m_isDrop s = true -> m_isDrop (state_of (asyncWrite throws s)) = true.
Proof. intros Hd. stays_dropped_tac. Qed.

Lemma onWrite_stays_dropped (_ec throws : bool) (s : WsSession) :
  m_isDrop s = true -> m_isDrop (state_of (onWrite _ec throws s)) = true.
Proof. intros Hd. stays_dropped_tac. Qed.

Lemma asyncSendMessage_stays_dropped (_msg : WsMessage.t) (_options : Options.t)
    (_respFunc : option RespCallBack) (throws : bool) (s : WsSession) :
  m_isDrop s = true ->
  m_isDrop (state_of (asyncSendMessage encode to_common _msg _options _respFunc throws s)) = true.
Proof.
  intros Hd. unfold asyncSendMessage.
  set (s1 := match _respFunc with Some _ => _ | None => s end).
  assert (H1 : m_isDrop s1 = true).
  { subst s1. destruct _respFunc; [|exact Hd]. destruct (0 <? _)%Z; exact Hd. }
  destruct (m_queue s1); [|exact H1].
  apply (asyncWrite_stays_dropped throws (set_queue ([] ++ [encode _msg]) s1)).
  exact H1.
Qed.

Lemma not_true_false (b b' : bool) : (b = true -> b' = true) -> b' = false -> b = false.
Proof. destruct b, b'; intuition congruence. Qed.

Lemma read_loop_inv_step (i : Input) (w : World) :
  read_loop_inv w -> read_loop_inv (step decode encode to_common i w).
Proof.
  intros Hinv. pose proof Hinv as (Hl & Hlo & Hhi & Hup). unfold step.
  destruct (crashed w) eqn:Hcr; [exact Hinv|].
  specialize (Hup eq_refl).
  destruct i as [_msg _options _respFunc throws | _ec throws | _ec data throws
                | t e | _reason | throws | throws].
  - destruct (asyncSendMessage_life _msg _options _respFunc throws (session w) Hl)
      as [Hl' Hr'].
    pose proof (asyncSendMessage_stays_dropped _msg _options _respFunc throws (session w))
      as Hm.
    unfold read_loop_inv, after. cbn [session racks crashed].
    rewrite Hr'. split; [exact Hl'|]. repeat split; auto.
    intros _ Hd. apply Hup. eapply not_true_false; eauto.
  - case_bool_decide; [|exact Hinv].
    destruct (onWrite_life _ec throws (session w) Hl) as [Hl' Hr'].
    pose proof (onWrite_stays_dropped _ec throws (session w)) as Hm.
    unfold read_loop_inv, after. cbn [session racks crashed].
    rewrite Hr'. split; [exact Hl'|]. repeat split; auto.
    intros _ Hd. apply Hup. eapply not_true_false; eauto.
  - case_bool_decide as Hfly;
      [|exact Hinv].
    unfold reads_in_flight in Hfly.
    set (s1 := set_buffer (m_buffer (session w) ++ data) (session w)).
    assert (Hl1 : life_ok s1) by exact Hl.
    destruct (onRead_life _ec throws s1 Hl1) as (Hl' & Hlo' & Hhi' & Hup').
    change (m_trace s1) with (m_trace (session w)) in *.
    unfold read_loop_inv, after. cbn [session racks crashed].
    split; [exact Hl'|]. repeat split; try lia.
    intros Hf Hd. rewrite (Hup' Hf Hd). lia.
  - destruct (m_ioc (session w) !! t) as [[ms sq]|];
      [|exact Hinv].
    case_bool_decide; [exact Hinv|].
    destruct (onRespTimeout_life e sq (session w) Hl) as [Hl' Hr'].
    destruct (onRespTimeout_local e sq (session w)) as (Hd' & _).
    unfold read_loop_inv, after, timer_wait_handler. cbn [session racks crashed state_of].
    rewrite Hr', Hd'. split; [exact Hl'|]. repeat split; auto.
  - destruct (drop_life _reason (session w) Hl) as [Hl' Hr'].
    destruct (drop_effect _reason (session w)) as (Hd' & _).
    unfold read_loop_inv, after. cbn [session racks crashed state_of].
    rewrite Hr', Hd'. split; [exact Hl'|]. repeat split; auto. discriminate.
  - destruct (ping_pong_life throws (session w) Hl) as [[Hl' Hr'] _].
    pose proof (ping_pong_stays_dropped throws (session w)) as Hm.
    unfold read_loop_inv, after. cbn [session racks crashed state_of].
    rewrite Hr'. split; [exact Hl'|]. repeat split; auto.
    intros _ Hd. apply Hup. eapply not_true_false; [|exact Hd]. apply Hm.
  - destruct (ping_pong_life throws (session w) Hl) as [_ [Hl' Hr']].
    pose proof (ping_pong_stays_dropped throws (session w)) as Hm.
    unfold read_loop_inv, after. cbn [session racks crashed state_of].
    rewrite Hr'. split; [exact Hl'|]. repeat split; auto.
    intros _ Hd. apply Hup. eapply not_true_false; [|exact Hd]. apply Hm.
Qed.

Lemma read_loop_inv_run (inputs : list Input) (w : World) :
  read_loop_inv w -> read_loop_inv (run decode encode to_common inputs w).
Proof.
  revert w. induction inputs as [|i inputs IH]; intros w Hw; [exact Hw|].
  simpl. apply IH, read_loop_inv_step, Hw.
Qed.

Lemma read_loop_inv_init (timeout : Z) (connectHandler : bool) :
  read_loop_inv (init_world timeout connectHandler).
Proof.
  unfold read_loop_inv, life_ok.
  destruct connectHandler; repeat split; try reflexivity; cbv; lia.
Qed.

(** X9: Over every run from a started session (sends, completions, timers,
    pings, pongs, drops in any order) the dropped flag is set exactly when
    the stream handle is null, and the stream has been closed once in that
    case and never otherwise: no run closes the stream twice. *)
Theorem dropped_iff_closed_once (timeout : Z) (connectHandler : bool)
    (inputs : list Input) :
  let s := session (run decode encode to_common inputs (init_world timeout connectHandler)) in
  (m_isDrop s = true <-> m_stream s = None) /\
  closes (m_trace s) = (if m_isDrop s then 1 else 0)%nat.
Proof.
  destruct (read_loop_inv_run inputs (init_world timeout connectHandler)
              (read_loop_inv_init timeout connectHandler)) as ([Hd Hc] & _).
  cbv zeta. rewrite Hc, Hd.
  destruct (m_stream _); split; try reflexivity; split; congruence.
Qed.

(** X10: Over every run from a started session at most one read is in flight,
    and exactly one is
    while the session has neither been dropped nor ended in a fault: the
    read loop keeps itself armed. *)
Theorem one_read_in_flight (timeout : Z) (connectHandler : bool)
    (inputs : list Input) :
  let w := run decode encode to_common inputs (init_world timeout connectHandler) in
  (reads_in_flight w <= 1)%nat /\
  (crashed w = None -> m_isDrop (session w) = false -> reads_in_flight w = 1%nat).
Proof.
  destruct (read_loop_inv_run inputs (init_world timeout connectHandler)
              (read_loop_inv_init timeout connectHandler)) as (_ & Hlo & Hhi & Hup).
  cbv zeta. unfold reads_in_flight. split; [lia|].
  intros Hc Hd. rewrite (Hup Hc Hd). lia.
Qed.

(** ** After the handle is null *)

Ltac quiet_tac Hs :=
  open_session; simpl; rewrite ?Hs; simpl;
  repeat (case_match; simpl; rewrite ?Hs; simpl);
  trace_simpl; rewrite ?app_nil_r; auto.

Lemma drop_quiet (r : WsError) (s : WsSession) :
  m_stream s = None ->
  m_stream (drop r s) = None /\
  stream_calls (m_trace (drop r s)) = stream_calls (m_trace s).
Proof. intros Hs. quiet_tac Hs. Qed.

Lemma ping_pong_quiet (throws : bool) (s : WsSession) :
  m_stream s = None ->
  (m_stream (ping throws s) = None /\
   stream_calls (m_trace (ping throws s)) = stream_calls (m_trace s)) /\
  (m_stream (pong throws s) = None /\
   stream_calls (m_trace (pong throws s)) = stream_calls (m_trace s)).
Proof. intros Hs. quiet_tac Hs. Qed.

Lemma onReadPacket_quiet (s : WsSession) :
  m_stream s = None ->
  m_stream (onReadPacket decode s) = None /\
  stream_calls (m_trace (onReadPacket decode s)) = stream_calls (m_trace s).
Proof.
  intros Hs. unfold onReadPacket. destruct (decode (m_buffer s)) as [status message].
  destruct (status <? 0)%Z; [apply drop_quiet, Hs|].
  rewrite getAndRemoveRespCallback_spec. simpl. auto.
Qed.

Lemma onRead_quiet (_ec throws : bool) (s : WsSession) :
  m_stream s = None ->
  m_stream (state_of (onRead decode _ec throws s)) = None /\
  stream_calls (m_trace (state_of (onRead decode _ec throws s)))
    = stream_calls (m_trace s).
Proof.
  intros Hs. unfold onRead. destruct _ec; [apply drop_quiet, Hs|].
  destruct (onReadPacket_quiet s Hs) as [Hs1 Ht1].
  unfold asyncRead. rewrite Hs1. auto.
Qed.

Lemma asyncWrite_quiet (throws : bool) (s : WsSession) :
  m_stream s = None ->
  asyncWrite throws s = Crash NullStream s.
Proof. intros Hs. unfold asyncWrite. rewrite Hs. reflexivity. Qed.

Lemma onWrite_quiet (_ec throws : bool) (s : WsSession) :
  m_stream s = None ->
  m_stream (state_of (onWrite _ec throws s)) = None /\
  stream_calls (m_trace (state_of (onWrite _ec throws s))) = stream_calls (m_trace s).
Proof.
  intros Hs. unfold onWrite, onWritePacket. destruct _ec; [apply drop_quiet, Hs|].
  destruct (m_queue s) as [|front [|next rest]]; [auto|auto|].
  rewrite asyncWrite_quiet by exact Hs. auto.
Qed.

Lemma asyncSendMessage_quiet (_msg : WsMessage.t) (_options : Options.t)
    (_respFunc : option RespCallBack) (throws : bool) (s : WsSession) :
  m_stream s = None ->
  let o := asyncSendMessage encode to_common _msg _options _respFunc throws s in
  m_stream (state_of o) = None /\
  stream_calls (m_trace (state_of o)) = stream_calls (m_trace s).
Proof.
  intros Hs. cbv zeta. unfold asyncSendMessage.
  set (s1 := match _respFunc with Some _ => _ | None => s end).
  assert (H1 : m_stream s1 = None /\ m_trace s1 = m_trace s).
  { subst s1. destruct _respFunc; [|auto]. destruct (0 <? _)%Z; auto. }
  destruct H1 as [Hs1 Ht1]. rewrite <- Ht1.
  destruct (m_queue s1); [|auto].
  rewrite asyncWrite_quiet by exact Hs1. auto.
Qed.

Lemma step_quiet (i : Input) (w : World) :
  m_stream (session w) = None ->
  m_stream (session (step decode encode to_common i w)) = None /\
  stream_calls (m_trace (session (step decode encode to_common i w)))
    = stream_calls (m_trace (session w)).
Proof.
  intros Hs. unfold step. destruct (crashed w); [auto|].
  destruct i as [_msg _options _respFunc throws | _ec throws | _ec data throws
                | t e | _reason | throws | throws]; unfold after; cbn [session].
  - apply asyncSendMessage_quiet, Hs.
  - case_bool_decide; [|auto]. apply onWrite_quiet, Hs.
  - case_bool_decide; [|auto].
    apply (onRead_quiet _ec throws (set_buffer (m_buffer (session w) ++ data) (session w))).
    exact Hs.
  - destruct (m_ioc (session w) !! t) as [[ms sq]|]; [|auto].
    case_bool_decide; [auto|]. cbn [session timer_wait_handler state_of].
    destruct (onRespTimeout_local e sq (session w))
      as (_ & Hs' & _ & _ & _ & Ht' & _).
    rewrite Hs', Ht'. auto.
  - apply drop_quiet, Hs.
  - apply ping_pong_quiet, Hs.
  - apply ping_pong_quiet, Hs.
Qed.

(** X11: Once the stream handle is null it stays null, and whatever happens
    next (sends, completions, timers, pings, pongs, drops) no call reaches
    the stream any more: the calls made on the stream are those made
    before. *)
Theorem no_stream_call_after_teardown (inputs : list Input) (w : World) :
  m_stream (session w) = None ->
  m_stream (session (run decode encode to_common inputs w)) = None /\
  stream_calls (m_trace (session (run decode encode to_common inputs w)))
    = stream_calls (m_trace (session w)).
Proof.
  revert w. induction inputs as [|i inputs IH]; intros w Hs; [auto|].
  simpl. destruct (step_quiet i w Hs) as [Hs1 Ht1].
  destruct (IH _ Hs1) as [Hs2 Ht2]. rewrite Ht2, Ht1. auto.
Qed.

(** ** Sending on a busy queue *)

Lemma asyncSendMessage_busy (_msg : WsMessage.t) (_options : Options.t)
    (_respFunc : option RespCallBack) (throws : bool) (s : WsSession) :
  m_queue s <> [] ->
  exists s', asyncSendMessage encode to_common _msg _options _respFunc throws s = Done s' /\
    m_queue s' = m_queue s ++ [encode _msg] /\
    m_trace s' = m_trace s /\ m_stream s' = m_stream s /\
    m_isDrop s' = m_isDrop s /\ m_threadPool s' = m_threadPool s.
Proof.
  intros Hq. unfold asyncSendMessage.
  set (s1 := match _respFunc with Some _ => _ | None => s end).
  assert (H1 : m_queue s1 = m_queue s /\ m_trace s1 = m_trace s /\
               m_stream s1 = m_stream s /\ m_isDrop s1 = m_isDrop s /\
               m_threadPool s1 = m_threadPool s).
  { subst s1. destruct _respFunc; [|repeat split].
    destruct (0 <? _)%Z; repeat split. }
  destruct H1 as (H1 & H2 & H3 & H4 & H5).
  destruct (m_queue s1) eqn:E; [congruence|].
  eexists. split; [reflexivity|]. simpl.
  repeat split; try assumption. rewrite <- H1. reflexivity.
Qed.

(** X12: While the queue is not empty a send only appends: it returns normally,
    makes no call on the stream and enqueues no closure, whether or not the
    session has been dropped.  So the buffers sent after a failed write, or
    after teardown with a buffer still queued, pile up behind the head and
    are not transmitted. *)
Theorem sends_on_busy_queue_only_append
    (l : list (WsMessage.t * Options.t * option RespCallBack * bool)) (w : World) :
  crashed w = None ->
  m_queue (session w) <> [] ->
  let w' := run decode encode to_common (send_inputs l) w in
  crashed w' = None /\
  m_queue (session w') = m_queue (session w) ++ map (fun x => encode x.1.1.1) l /\
  m_trace (session w') = m_trace (session w) /\
  m_stream (session w') = m_stream (session w) /\
  m_isDrop (session w') = m_isDrop (session w) /\
  m_threadPool (session w') = m_threadPool (session w).
Proof.
  revert w. induction l as [|x l IH]; intros w Hc Hq.
  - simpl. rewrite app_nil_r. repeat split; assumption.
  - destruct (asyncSendMessage_busy x.1.1.1 x.1.1.2 x.1.2 x.2 (session w) Hq)
      as (s' & Hsend & Hq' & Ht' & Hs' & Hd' & Hp').
    set (i := CallSend x.1.1.1 x.1.1.2 x.1.2 x.2).
    assert (Hstep : crashed (step decode encode to_common i w) = None /\
                    session (step decode encode to_common i w) = s').
    { unfold step, i. rewrite Hc, Hsend. split; reflexivity. }
    destruct Hstep as [Hc1 Hs1].
    cbv zeta.
    change (run decode encode to_common (send_inputs (x :: l)) w)
      with (run decode encode to_common (send_inputs l) (step decode encode to_common i w)).
    destruct (IH (step decode encode to_common i w)) as (Hc2 & Hq2 & Ht2 & Hs2 & Hd2 & Hp2).
    + exact Hc1.
    + rewrite Hs1, Hq'. destruct (m_queue (session w)); discriminate.
    + rewrite Hq2, Ht2, Hs2, Hd2, Hp2, Hs1, Hq', Ht', Hs', Hd', Hp'.
      simpl. rewrite <- app_assoc. repeat split; assumption || reflexivity.
Qed.

(** ** Draining the queue *)

Lemma onWrite_live (h : nat) (s : WsSession) :
  m_stream s = Some h ->
  m_queue s <> [] ->
  fault_of (onWrite false false s) = None /\
  m_stream (state_of (onWrite false false s)) = Some h /\
  m_isDrop (state_of (onWrite false false s)) = m_isDrop s.
Proof.
  intros Hs Hq. unfold onWrite, onWritePacket, asyncWrite.
  destruct (m_queue s) as [|front [|next rest]]; [congruence|auto|].
  simpl. rewrite Hs. auto.
Qed.

Lemma send_phase (l : list (WsMessage.t * Options.t * option RespCallBack))
    (h : nat) (w : World) :
  crashed w = None ->
  m_stream (session w) = Some h ->
  let w' := run decode encode to_common (unfailing_sends l) w in
  crashed w' = None /\
  m_stream (session w') = Some h /\
  m_queue (session w') = m_queue (session w) ++ map (fun x => encode x.1.1) l /\
  wire (m_trace (session w')) =
    wire (m_trace (session w)) ++
    match m_queue (session w) with
    | [] => take 1 (map (fun x => encode x.1.1) l)
    | _ :: _ => []
    end /\
  wacks w' = wacks w /\
  m_isDrop (session w') = m_isDrop (session w).
Proof.
  revert w. induction l as [|x l IH]; intros w Hc Hs.
  - cbv zeta. simpl. destruct (m_queue (session w)); rewrite ?app_nil_r;
      repeat split; assumption || reflexivity.
  - destruct (asyncSendMessage_live x.1.1 x.1.2 x.2 h (session w) Hs)
      as (Hf & Hs' & Hd' & _).
    destruct (asyncSendMessage_effect encode to_common x.1.1 x.1.2 x.2 false (session w))
      as [Hq' Hw'].
    set (i := CallSend x.1.1 x.1.2 x.2 false).
    assert (Hstep : crashed (step decode encode to_common i w) = None /\
                    session (step decode encode to_common i w) =
                      state_of (asyncSendMessage encode to_common x.1.1 x.1.2 x.2 false (session w)) /\
                    wacks (step decode encode to_common i w) = wacks w).
    { unfold step, i. rewrite Hc. unfold after. cbn [crashed session wacks]. auto. }
    destruct Hstep as (Hc1 & Hs1 & Ha1).
    cbv zeta.
    change (run decode encode to_common (unfailing_sends (x :: l)) w)
      with (run decode encode to_common (unfailing_sends l) (step decode encode to_common i w)).
    destruct (IH (step decode encode to_common i w)) as (Hc2 & Hs2 & Hq2 & Hw2 & Ha2 & Hd2).
    + exact Hc1.
    + rewrite Hs1. exact Hs'.
    + rewrite Hq2, Hw2, Ha2, Hd2, Ha1, Hs1, Hq', Hw', Hs, Hd'.
      rewrite <- !app_assoc. repeat split; try assumption; try reflexivity.
      destruct (m_queue (session w)); simpl; rewrite ?app_nil_r; reflexivity.
Qed.

Lemma drain_phase (q : list bytes) (h : nat) (pre : list bytes) (w : World) :
  crashed w = None ->
  m_stream (session w) = Some h ->
  m_queue (session w) = q ->
  wire (m_trace (session w)) = pre ++ take 1 q ->
  wacks w = length pre ->
  let w' := run decode encode to_common (replicate (length q) (WriteCompletes false false)) w in
  crashed w' = None /\
  m_stream (session w') = Some h /\
  m_queue (session w') = [] /\
  wire (m_trace (session w')) = pre ++ q /\
  wacks w' = (length pre + length q)%nat /\
  m_isDrop (session w') = m_isDrop (session w).
Proof.
  revert pre w. induction q as [|front rest IH]; intros pre w Hc Hs Hq Hw Ha.
  - simpl in *. repeat split; auto with lia.
  - assert (Hfly : writes_in_flight w = 1%nat).
    { unfold writes_in_flight. rewrite Hw, Ha, length_app. simpl. lia. }
    assert (Hne : m_queue (session w) <> []) by (rewrite Hq; discriminate).
    destruct (onWrite_live h (session w) Hs Hne) as (Hf & Hs' & Hd').
    destruct (onWrite_effect false (session w) front rest) as [Hq' Hw'].
    rewrite <- Hq, set_queue_same in Hq', Hw'.
    assert (Hstep : crashed (step decode encode to_common (WriteCompletes false false) w) = None /\
                    session (step decode encode to_common (WriteCompletes false false) w) =
                      state_of (onWrite false false (session w)) /\
                    wacks (step decode encode to_common (WriteCompletes false false) w) = S (wacks w)).
    { unfold step. rewrite Hc. rewrite bool_decide_eq_true_2 by lia.
      unfold after. cbn [crashed session wacks]. auto. }
    destruct Hstep as (Hc1 & Hs1 & Ha1).
    cbv zeta.
    change (run decode encode to_common (replicate (length (front :: rest)) (WriteCompletes false false)) w)
      with (run decode encode to_common (replicate (length rest) (WriteCompletes false false)) (step decode encode to_common (WriteCompletes false false) w)).
    destruct (IH (pre ++ [front]) (step decode encode to_common (WriteCompletes false false) w))
      as (Hc2 & Hs2 & Hq2 & Hw2 & Ha2 & Hd2).
    + exact Hc1.
    + rewrite Hs1. exact Hs'.
    + rewrite Hs1. exact Hq'.
    + rewrite Hs1, Hw', Hw, Hs.
      destruct rest; simpl; rewrite ?app_nil_r, <- ?app_assoc; reflexivity.
    + rewrite Ha1, Ha, length_app. simpl. lia.
    + rewrite Hw2, Ha2, Hd2, Hs1, Hd', length_app, <- app_assoc. simpl.
      repeat split; auto with lia.
Qed.

Lemma run_app (a b : list Input) (w : World) :
  run decode encode to_common (a ++ b) w = run decode encode to_common b (run decode encode to_common a w).
Proof. apply foldl_app. Qed.

(** X13: On a session whose stream neither fails nor throws, everything sent is
    transmitted: after any number of sends and as many write completions,
    the stream has been given exactly the encoded messages, in call order,
    the queue is empty and no write is in flight. *)
Theorem everything_sent_is_transmitted
    (l : list (WsMessage.t * Options.t * option RespCallBack))
    (timeout : Z) (connectHandler : bool) :
  let w := run decode encode to_common
             (unfailing_sends l ++ replicate (length l) (WriteCompletes false false))
             (init_world timeout connectHandler) in
  crashed w = None /\
  wire (m_trace (session w)) = map (fun x => encode x.1.1) l /\
  m_queue (session w) = [] /\
  writes_in_flight w = 0%nat /\
  m_isDrop (session w) = false.
Proof.
  cbv zeta. rewrite run_app.
  set (w0 := init_world timeout connectHandler).
  assert (H0 : crashed w0 = None /\ m_stream (session w0) = Some 0%nat /\
               m_queue (session w0) = [] /\ wire (m_trace (session w0)) = [] /\
               wacks w0 = 0%nat /\ m_isDrop (session w0) = false).
  { subst w0. destruct connectHandler; repeat split. }
  destruct H0 as (Hc0 & Hs0 & Hq0 & Hw0 & Ha0 & Hd0).
  destruct (send_phase l 0%nat w0 Hc0 Hs0) as (Hc1 & Hs1 & Hq1 & Hw1 & Ha1 & Hd1).
  rewrite Hq0, Hw0 in *. simpl in Hq1, Hw1.
  set (w1 := run decode encode to_common (unfailing_sends l) w0) in *.
  assert (Ha1' : wacks w1 = length (@nil bytes)) by (rewrite Ha1, Ha0; reflexivity).
  destruct (drain_phase _ 0%nat [] w1 Hc1 Hs1 Hq1 Hw1 Ha1')
    as (Hc2 & Hs2 & Hq2 & Hw2 & Ha2 & Hd2).
  rewrite length_map in Hc2, Hs2, Hq2, Hw2, Ha2, Hd2.
  split; [exact Hc2|]. split; [exact Hw2|]. split; [exact Hq2|].
  split.
  - unfold writes_in_flight. rewrite Hw2, Ha2. simpl. rewrite length_map. lia.
  - rewrite Hd2, Hd1. exact Hd0.
Qed.

(** ** Timers and the registry *)

Lemma registry_inv_shrink (s s' : WsSession) :
  m_ioc s' = m_ioc s ->
  m_callbacks s' ⊆ m_callbacks s ->
  registry_inv s -> registry_inv s'.
Proof.
  intros Hi Hc Hinv k cb t Hk Ht. rewrite Hi.
  apply (Hinv k cb t); [|exact Ht]. eapply lookup_weaken; eauto.
Qed.

Ltac reg_tac := split; [reflexivity|]; first [reflexivity | apply delete_subseteq].

Lemma drop_registry (r : WsError) (s : WsSession) :
  m_ioc (drop r s) = m_ioc s /\ m_callbacks (drop r s) ⊆ m_callbacks s.
Proof.
  destruct (drop_frame r s) as (_ & Hc & Hi & _). rewrite Hc, Hi. reg_tac.
Qed.

Lemma ping_pong_registry (throws : bool) (s : WsSession) :
  (m_ioc (ping throws s) = m_ioc s /\ m_callbacks (ping throws s) ⊆ m_callbacks s) /\
  (m_ioc (pong throws s) = m_ioc s /\ m_callbacks (pong throws s) ⊆ m_callbacks s).
Proof.
  unfold ping, pong. destruct (m_stream s); [|split; reg_tac].
  destruct throws; split; try apply drop_registry; reg_tac.
Qed.

Lemma onRespTimeout_registry (e : bool) (_seq : string) (s : WsSession) :
  m_ioc (onRespTimeout e _seq s) = m_ioc s /\
  m_callbacks (onRespTimeout e _seq s) ⊆ m_callbacks s.
Proof.
  unfold onRespTimeout. destruct e; [reg_tac|].
  rewrite getAndRemoveRespCallback_spec.
  destruct (m_callbacks s !! _seq); simpl; reg_tac.
Qed.

Lemma onReadPacket_registry (s : WsSession) :
  m_ioc (onReadPacket decode s) = m_ioc s /\
  m_callbacks (onReadPacket decode s) ⊆ m_callbacks s.
Proof.
  unfold onReadPacket. destruct (decode (m_buffer s)) as [status message].
  destruct (status <? 0)%Z; [apply drop_registry|].
  rewrite getAndRemoveRespCallback_spec. simpl. reg_tac.
Qed.

Lemma onRead_registry (_ec throws : bool) (s : WsSession) :
  m_ioc (state_of (onRead decode _ec throws s)) = m_ioc s /\
  m_callbacks (state_of (onRead decode _ec throws s)) ⊆ m_callbacks s.
Proof.
  unfold onRead. destruct _ec; [apply drop_registry|].
  destruct (onReadPacket_registry s) as [Hi Hc].
  set (s1 := onReadPacket decode s) in *.
  destruct (drop_registry ReadError s1) as [Hi' Hc'].
  unfold asyncRead. destruct (m_stream s1); [|split; assumption].
  destruct throws; cbn [state_of].
  - rewrite Hi', Hi. split; [reflexivity|]. etransitivity; eauto.
  - simpl. split; assumption.
Qed.

Lemma onWrite_registry (_ec throws : bool) (s : WsSession) :
  m_ioc (state_of (onWrite _ec throws s)) = m_ioc s /\
  m_callbacks (state_of (onWrite _ec throws s)) ⊆ m_callbacks s.
Proof.
  unfold onWrite, onWritePacket. destruct _ec; [apply drop_registry|].
  destruct (m_queue s) as [|front [|next rest]]; [reg_tac|reg_tac|].
  destruct (asyncWrite_frame throws (set_queue (next :: rest) s)) as (_ & Hc & Hi).
  rewrite Hc, Hi. reg_tac.
Qed.

Lemma asyncSendMessage_registry (_msg : WsMessage.t) (_options : Options.t)
    (_respFunc : option RespCallBack) (throws : bool) (s : WsSession) :
  registry_inv s ->
  registry_inv (state_of (asyncSendMessage encode to_common _msg _options _respFunc throws s)).
Proof.
  intros Hinv. unfold asyncSendMessage.
  set (s1 := match _respFunc with Some _ => _ | None => s end).
  assert (H1 : registry_inv s1).
  { subst s1. destruct _respFunc as [f|]; [|exact Hinv].
    set (timeout := if (0 <? Options.timeout _options)%Z then _ else _).
    destruct (0 <? timeout)%Z eqn:Hpos; intros k cb t; simpl.
    - destruct (decide (WsMessage.seq _msg = k)) as [->|Hne].
      + rewrite lookup_insert_eq. intros [= <-] [= <-]. simpl.
        exists timeout. rewrite lookup_app_r by reflexivity.
        rewrite Nat.sub_diag. split; [reflexivity|]. apply Z.ltb_lt, Hpos.
      + rewrite lookup_insert_ne by exact Hne. intros Hk Ht.
        destruct (Hinv k cb t Hk Ht) as (ms & Hl & Hms).
        exists ms. split; [|exact Hms]. apply lookup_app_l_Some, Hl.
    - destruct (decide (WsMessage.seq _msg = k)) as [->|Hne].
      + rewrite lookup_insert_eq. intros [= <-] Ht. discriminate Ht.
      + rewrite lookup_insert_ne by exact Hne. apply Hinv. }
  destruct (m_queue s1); [|exact H1].
  destruct (asyncWrite_frame throws (set_queue ([] ++ [encode _msg]) s1))
    as (_ & Hc & Hi).
  eapply registry_inv_shrink; [exact Hi | rewrite Hc; reflexivity | exact H1].
Qed.

Lemma registry_inv_step (i : Input) (w : World) :
  registry_inv (session w) -> registry_inv (session (step decode encode to_common i w)).
Proof.
  intros Hinv. unfold step. destruct (crashed w); [exact Hinv|].
  destruct i as [_msg _options _respFunc throws | _ec throws | _ec data throws
                | t e | _reason | throws | throws]; unfold after; cbn [session].
  - apply asyncSendMessage_registry, Hinv.
  - case_bool_decide; [|exact Hinv]. cbn [session].
    destruct (onWrite_registry _ec throws (session w)) as [Hi Hc].
    eapply registry_inv_shrink; eauto.
  - case_bool_decide; [|exact Hinv]. cbn [session].
    destruct (onRead_registry _ec throws
                (set_buffer (m_buffer (session w) ++ data) (session w))) as [Hi Hc].
    eapply registry_inv_shrink; [exact Hi | exact Hc | exact Hinv].
  - destruct (m_ioc (session w) !! t) as [[ms sq]|]; [|exact Hinv].
    case_bool_decide; [exact Hinv|]. cbn [session state_of timer_wait_handler].
    destruct (onRespTimeout_registry e sq (session w)) as [Hi Hc].
    eapply registry_inv_shrink; eauto.
  - destruct (drop_registry _reason (session w)) as [Hi Hc].
    eapply registry_inv_shrink; eauto.
  - destruct (ping_pong_registry throws (session w)) as [[Hi Hc] _].
    eapply registry_inv_shrink; eauto.
  - destruct (ping_pong_registry throws (session w)) as [_ [Hi Hc]].
    eapply registry_inv_shrink; eauto.
Qed.

Lemma registry_inv_run (inputs : list Input) (w : World) :
  registry_inv (session w) ->
  registry_inv (session (run decode encode to_common inputs w)).
Proof.
  revert w. induction inputs as [|i inputs IH]; intros w Hw; [exact Hw|].
  simpl. apply IH, registry_inv_step, Hw.
Qed.

Lemma registry_inv_init (timeout : Z) (connectHandler : bool) :
  registry_inv (session (init_world timeout connectHandler)).
Proof.
  intros k cb t Hk. destruct connectHandler; simpl in Hk;
    rewrite lookup_empty in Hk; discriminate.
Qed.

(** X14: Over every run from a started session, a registered callback that has
    a timer refers to a timer that was armed for the same sequence
    identifier with a positive duration; so no two registered callbacks
    share a timer. *)
Theorem registered_timers_are_armed (timeout : Z) (connectHandler : bool)
    (inputs : list Input) :
  let s := session (run decode encode to_common inputs (init_world timeout connectHandler)) in
  registry_inv s /\
  (forall (k1 k2 : string) (cb1 cb2 : CallBack) (t : nat),
     m_callbacks s !! k1 = Some cb1 -> m_callbacks s !! k2 = Some cb2 ->
     timer cb1 = Some t -> timer cb2 = Some t -> k1 = k2).
Proof.
  cbv zeta.
  pose proof (registry_inv_run inputs (init_world timeout connectHandler)
                (registry_inv_init timeout connectHandler)) as Hinv.
  split; [exact Hinv|].
  intros k1 k2 cb1 cb2 t H1 H2 T1 T2.
  destruct (Hinv k1 cb1 t H1 T1) as (ms1 & L1 & _).
  destruct (Hinv k2 cb2 t H2 T2) as (ms2 & L2 & _).
  congruence.
Qed.

(** ** Failures while writing and while re-arming the read *)

(** X15: A write failure is contained and leaves the queue behind.  On a live
    session: a write completion with an error keeps the failed buffer at
    the head; a completion without error whose next [asyncWrite] throws pops
    the head and keeps the rest; a send on an empty queue whose [asyncWrite]
    throws keeps its buffer queued.  Each returns normally with the session
    dropped for [WriteError], the stream closed, one disconnect closure
    enqueued and nothing more given to the stream. *)
Theorem write_failure_keeps_queue (h : nat) (throws : bool) (front next : bytes)
    (rest : list bytes) (_msg : WsMessage.t) (_options : Options.t) (s : WsSession) :
  m_stream s = Some h ->
  let failed s0 q s' :=
    m_queue s' = q /\ m_isDrop s' = true /\ m_stream s' = None /\
    m_trace s' = m_trace s0 ++ [LogDrop WriteError; StreamClose] /\
    m_threadPool s' = m_threadPool s0 ++ [DisconnectTask] /\
    m_callbacks s' = m_callbacks s0 in
  (exists s', onWrite true throws (set_queue (front :: rest) s) = Done s' /\
     failed s (front :: rest) s') /\
  (exists s', onWrite false true (set_queue (front :: next :: rest) s) = Done s' /\
     failed s (next :: rest) s') /\
  (exists s', asyncSendMessage encode to_common _msg _options None true (set_queue [] s) = Done s' /\
     failed s [encode _msg] s').
Proof.
  intros Hs. cbv zeta.
  unfold onWrite, onWritePacket, asyncSendMessage, asyncWrite, drop, disconnect.
  repeat (simpl; rewrite ?Hs).
  repeat split; eexists; (split; [reflexivity|]); simpl;
    rewrite <- ?app_assoc; repeat split; reflexivity.
Qed.

(** X16: A message decoded just before the re-arming [asyncRead] throws is not
    lost: its closure is in the worker pool ahead of the disconnect closure,
    the session is dropped for [ReadError] and no read is armed. *)
Theorem read_rearm_failure_keeps_message (h : nat) (status : Z)
    (message : WsMessage.t) (s : WsSession) :
  m_stream s = Some h ->
  decode (m_buffer s) = (status, message) ->
  (0 <= status)%Z ->
  exists s', onRead decode false true s = Done s' /\
    m_threadPool s' =
      m_threadPool s ++
      [ReadTask message (m_callbacks s !! WsMessage.seq message); DisconnectTask] /\
    run_pool true [ReadTask message None; DisconnectTask] =
      [CallRecvMessageHandler message; CallDisconnectHandler] /\
    m_isDrop s' = true /\
    m_trace s' = m_trace s ++ [LogDrop ReadError; StreamClose] /\
    m_buffer s' = [].
Proof.
  intros Hs Hdec Hst.
  assert (Hlt : (status <? 0)%Z = false) by (apply Z.ltb_ge; lia).
  unfold onRead, onReadPacket, asyncRead. rewrite Hdec, Hlt.
  rewrite getAndRemoveRespCallback_spec. simpl. rewrite Hs.
  eexists. split; [reflexivity|].
  unfold drop, disconnect. repeat (simpl; rewrite ?Hs).
  rewrite <- ?app_assoc. repeat split; reflexivity.
Qed.

End More.

(** ** The further properties at sample inputs *)

Lemma ping_pong_failure_tears_down_witness :
  m_stream (fresh 0 false) = Some 0%nat /\
  m_trace (ping true (fresh 0 false)) = [LogDrop PingError; StreamClose] /\
  pong false (ping true (fresh 0 false)) = ping true (fresh 0 false).
Proof.
  split; [reflexivity|].
  destruct (ping_pong_failure_tears_down 0 false false (fresh 0 false) eq_refl)
    as ((Ht & _ & _ & _ & Hp) & _).
  split; [exact Ht | exact Hp].
Defined.

Lemma start_client_and_server_agree_witness :
  m_stream (fresh 0 true) = Some 0%nat /\
  startAsClient false (fresh 0 true) = onHandshake false false (fresh 0 true) /\
  m_trace (state_of (onHandshake false false (state_of (startAsServer (fresh 0 true)))))
    = [StreamAsyncHandshake; ConnectHandlerCall; StreamAsyncRead].
Proof.
  split; [reflexivity|].
  destruct (start_client_and_server_agree false 0 (fresh 0 true) eq_refl)
    as (Heq & _ & _ & Htrace & _).
  split; [exact Heq | exact Htrace].
Defined.

Lemma reply_cancels_the_armed_timer_witness :
  sample_decode (sample_encode msg_a) = (0%Z, msg_a) /\
  run_task true (ReadTask msg_a (Some (mkCallBack 7 (Some 0%nat)))) =
    [CancelTimer 0; CallRespCallBack 7 None (Some msg_a) true] /\
  m_callbacks
    (onReadPacket sample_decode
       (set_buffer (sample_encode msg_a)
          (state_of (asyncSendMessage sample_encode same_type msg_a one_second (Some 7%nat)
                       false (fresh 0 false))))) !! "a" = None.
Proof.
  split; [reflexivity|].
  destruct (reply_cancels_the_armed_timer sample_decode sample_encode same_type msg_a msg_a
              one_second 7 0 (sample_encode msg_a) 0 (fresh 0 false))
    as (_ & _ & _ & Hrun & Hgone & _).
  - reflexivity.
  - reflexivity.
  - reflexivity.
  - lia.
  - reflexivity.
  - split; [exact Hrun | exact Hgone].
Defined.


Lemma no_stream_call_after_teardown_witness :
  m_stream (session dropped_mid_write) = None /\
  stream_calls
    (m_trace (session (run sample_decode sample_encode same_type
                         [CallPing false; CallSend msg_a no_timeout None false;
                          WriteCompletes false false]
                         dropped_mid_write)))
    = stream_calls (m_trace (session dropped_mid_write)).
Proof.
  split; [reflexivity|].
  apply (no_stream_call_after_teardown sample_decode sample_encode same_type
           [CallPing false; CallSend msg_a no_timeout None false;
            WriteCompletes false false] dropped_mid_write).
  reflexivity.
Defined.

Lemma sends_on_busy_queue_only_append_witness :
  crashed dropped_mid_write = None /\
  m_queue (session dropped_mid_write) <> [] /\
  m_trace (session (run sample_decode sample_encode same_type
                      (send_inputs [(msg_a, no_timeout, None, true)])
                      dropped_mid_write))
    = m_trace (session dropped_mid_write).
Proof.
  split; [reflexivity|]. split; [discriminate|].
  destruct (sends_on_busy_queue_only_append sample_decode sample_encode same_type
              [(msg_a, no_timeout, None, true)] dropped_mid_write)
    as (_ & _ & Htrace & _).
  - reflexivity.
  - discriminate.
  - exact Htrace.
Defined.

Lemma write_failure_keeps_queue_witness :
  m_stream (fresh 0 false) = Some 0%nat /\
  exists s', asyncSendMessage sample_encode same_type msg_a no_timeout None true
               (set_queue [] (fresh 0 false)) = Done s' /\
             m_queue s' = [sample_encode msg_a] /\ m_isDrop s' = true.
Proof.
  split; [reflexivity|].
  destruct (write_failure_keeps_queue sample_encode same_type 0 false [] [] [] msg_a no_timeout
              (fresh 0 false) eq_refl) as (_ & _ & s' & Hsend & Hq & Hd & _).
  exists s'. repeat split; assumption.
Defined.

Lemma read_rearm_failure_keeps_message_witness :
  sample_decode (m_buffer unsolicited_b) = (0%Z, msg_b) /\
  exists s', onRead sample_decode false true unsolicited_b = Done s' /\
             m_threadPool s' = [ReadTask msg_b None; DisconnectTask].
Proof.
  split; [reflexivity|].
  destruct (read_rearm_failure_keeps_message sample_decode 0 0 msg_b unsolicited_b)
    as (s' & Hread & Hpool & _).
  - reflexivity.
  - reflexivity.
  - lia.
  - exists s'. split; [exact Hread | exact Hpool].
Defined.
